(** * export_tarball.py: the archive filter, the metadata normalizer and main

    A shallow embedding of [src/export_tarball.py].  Python [str] values are
    Rocq strings whose characters are read as code points below 256; the
    integers of Python are [Z].  The functions of the Python library that
    the script calls ([str] methods, [posixpath], one regular expression of
    [re], [tarfile.TarFile.add]) are embedded next to it, each under the
    name it has in Python.

    Left out of the embedding: the failures of the operating system while
    a run prints and writes (a file that cannot be opened for reading, a
    directory that cannot be listed, a pipe that the compressor or the
    reader of the output has closed), and hard links, for which
    [tarfile] writes a link to the first name where the embedding writes
    a regular file.  Where a statement on a whole run depends on this, it
    is on runs that end with status 0, which no such failure has ended. *)

From Stdlib Require Import ZArith Lia Bool List Ascii String.
From stdpp Require Import base tactics option list sorting gmap strings.

Local Open Scope string_scope.
Local Open Scope Z_scope.

(** ** Python [str] methods *)

Module str.

(** [s.startswith(prefix)] *)
Definition startswith (s prefix : string) : bool := String.prefix prefix s.

(** [s.endswith(suffix)]: some tail of [s] is [suffix]. *)
Fixpoint endswith (s suffix : string) : bool :=
  if String.eqb s suffix then true
  else match s with
       | EmptyString => false
       | String _ s' => endswith s' suffix
       end.

(** [sub in s] *)
Fixpoint contains (sub s : string) : bool :=
  if String.prefix sub s then true
  else match s with
       | EmptyString => false
       | String _ s' => contains sub s'
       end.

(** [s.rfind(c)] for a one-character [c]: the highest index, or -1. *)
Fixpoint rfind_from (c : ascii) (s : string) (i last : Z) : Z :=
  match s with
  | EmptyString => last
  | String a s' => rfind_from c s' (i + 1) (if Ascii.eqb a c then i else last)
  end.
Definition rfind (s : string) (c : ascii) : Z := rfind_from c s 0 (-1).

(** [s[:i]] and [s[i:]] for [0 <= i]. *)
Fixpoint take (n : nat) (s : string) : string :=
  match n, s with
  | S n', String a s' => String a (take n' s')
  | _, _ => EmptyString
  end.
Fixpoint drop (n : nat) (s : string) : string :=
  match n, s with
  | S n', String _ s' => drop n' s'
  | _, _ => s
  end.
Definition slice_to (s : string) (i : Z) : string := take (Z.to_nat i) s.
Definition slice_from (s : string) (i : Z) : string := drop (Z.to_nat i) s.

(** [s == c * len(s)] *)
Fixpoint all_char (c : ascii) (s : string) : bool :=
  match s with
  | EmptyString => true
  | String a s' => Ascii.eqb a c && all_char c s'
  end.

(** [s.rstrip(c)] and [s.lstrip(c)] for a one-character [c]. *)
Fixpoint rstrip (s : string) (c : ascii) : string :=
  match s with
  | EmptyString => EmptyString
  | String a s' =>
      match rstrip s' c with
      | EmptyString => if Ascii.eqb a c then EmptyString else String a EmptyString
      | r => String a r
      end
  end.
Fixpoint lstrip (s : string) (c : ascii) : string :=
  match s with
  | EmptyString => EmptyString
  | String a s' => if Ascii.eqb a c then lstrip s' c else s
  end.

(** [s.split(c)] for a one-character separator: empty pieces are kept. *)
Fixpoint split (s : string) (c : ascii) : list string :=
  match s with
  | EmptyString => [EmptyString]
  | String a s' =>
      let pieces := split s' c in
      if Ascii.eqb a c then EmptyString :: pieces
      else match pieces with
           | piece :: rest => String a piece :: rest
           | [] => [String a EmptyString]
           end
  end.

(** [sep.join(pieces)] *)
Definition join (sep : string) (pieces : list string) : string :=
  String.concat sep pieces.

End str.

(** ** [posixpath], the [os.path] of the platform the script runs on *)

Module os_path.

Definition sep : ascii := "/"%char.
Definition curdir : string := ".".
Definition pardir : string := "..".

Definition isabs (s : string) : bool := str.startswith s "/".

(** One round of the loop of [join(a, *p)]. *)
Definition join_step (path b : string) : string :=
  if str.startswith b "/" then b
  else if String.eqb path EmptyString || str.endswith path "/" then path +:+ b
  else path +:+ "/" +:+ b.

Definition join (a : string) (p : list string) : string :=
  fold_left join_step p a.

(** [join(a, b)], the call with two arguments. *)
Definition join2 (a b : string) : string := join a [b].

(** [split(p)]: the head up to the last slash and the tail after it;
    trailing slashes are stripped from the head unless it is all slashes. *)
Definition split (p : string) : string * string :=
  let i := str.rfind p sep + 1 in
  let head := str.slice_to p i in
  let tail := str.slice_from p i in
  let head :=
    if negb (String.eqb head EmptyString) && negb (str.all_char sep head)
    then str.rstrip head sep else head in
  (head, tail).

Definition dirname (p : string) : string := fst (split p).
Definition basename (p : string) : string := snd (split p).

(** The loop of [normpath] over the components of the path. *)
Definition normpath_step (initial_slashes : Z)
    (new_comps : list string) (comp : string) : list string :=
  if String.eqb comp EmptyString || String.eqb comp "." then new_comps
  else if negb (String.eqb comp "..")
          || ((initial_slashes =? 0) && bool_decide (new_comps = []))
          || (negb (bool_decide (new_comps = []))
              && bool_decide (last new_comps = Some ".."))
  then (new_comps ++ [comp])%list
  else removelast new_comps.

Definition normpath (path : string) : string :=
  if String.eqb path EmptyString then "."
  else
    let initial_slashes : Z :=
      if str.startswith path "/" then
        if str.startswith path "//" && negb (str.startswith path "///")
        then 2 else 1
      else 0 in
    let comps := fold_left (normpath_step initial_slashes) (str.split path sep) [] in
    let path := str.join "/" comps in
    let path :=
      match initial_slashes with
      | 0 => path
      | 1 => "/" +:+ path
      | _ => "//" +:+ path
      end in
    if String.eqb path EmptyString then "." else path.

(** [abspath(path)]; [cwd] is [os.getcwd()]. *)
Definition abspath (cwd path : string) : string :=
  normpath (if isabs path then path else join2 cwd path).

(** [len(commonprefix([l1, l2]))] on two lists of components. *)
Fixpoint commonprefix_len (l1 l2 : list string) : nat :=
  match l1, l2 with
  | x :: l1', y :: l2' =>
      if String.eqb x y then S (commonprefix_len l1' l2') else O
  | _, _ => O
  end.

Definition nonempty (x : string) : bool := negb (String.eqb x EmptyString).

(** [relpath(path, start)]; [None] stands for the [ValueError] raised on
    an empty [path]. *)
Definition relpath (cwd path start : string) : option string :=
  if String.eqb path EmptyString then None
  else
    let start_list := List.filter nonempty (str.split (abspath cwd start) sep) in
    let path_list := List.filter nonempty (str.split (abspath cwd path) sep) in
    let i := commonprefix_len start_list path_list in
    let rel_list :=
      (repeat pardir (length start_list - i)%nat ++ skipn i path_list)%list in
    match rel_list with
    | [] => Some curdir
    | a :: p => Some (join a p)
    end.

End os_path.

(** ** The one regular expression of the script, and [re.search] *)

Module re.

(** Regular expressions, as far as the pattern of the script needs them. *)
Inductive regex : Type :=
| Chr (c : ascii)                 (* one literal character *)
| Str (t : string)                (* literal text *)
| PlusClass (cls : ascii -> bool) (* one or more characters of a class *)
| Seq (r1 r2 : regex)
| Alt (r1 r2 : regex)
| Opt (r : regex)                 (* (r)? *)
| Dollar.                         (* $ *)

(** [\s] of a [str] pattern, on code points below 256: the characters
    for which [str.isspace] holds. *)
Definition is_space (a : ascii) : bool :=
  let n := N_of_ascii a in
  ((9 <=? n) && (n <=? 13) || (28 <=? n) && (n <=? 32)
   || (n =? 133) || (n =? 160))%N.

(** [\S] *)
Definition non_space (a : ascii) : bool := negb (is_space a).

(** [$] without [re.MULTILINE]: at the end of the string, or just before
    a newline that ends the string. *)
Definition at_end (s : string) : bool :=
  String.eqb s EmptyString || String.eqb s (String "010"%char EmptyString).

Fixpoint plus_class (cls : ascii -> bool) (s : string) (k : string -> bool) : bool :=
  match s with
  | EmptyString => false
  | String a s' => cls a && (k s' || plus_class cls s' k)
  end.

(** [accept r s k]: some match of [r] at the start of [s] leaves a rest
    that [k] accepts. *)
Fixpoint accept (r : regex) (s : string) (k : string -> bool) : bool :=
  match r with
  | Chr c =>
      match s with
      | String a s' => Ascii.eqb a c && k s'
      | EmptyString => false
      end
  | Str t => String.prefix t s && k (str.drop (String.length t) s)
  | PlusClass cls => plus_class cls s k
  | Seq r1 r2 => accept r1 s (fun s' => accept r2 s' k)
  | Alt r1 r2 => accept r1 s k || accept r2 s k
  | Opt r1 => accept r1 s k || k s
  | Dollar => at_end s && k s
  end.

(** The truth value of [re.search(r, s)]: a match at some position. *)
Fixpoint search (r : regex) (s : string) : bool :=
  accept r s (fun _ => true)
  || match s with
     | EmptyString => false
     | String _ s' => search r s'
     end.

End re.

(** ** The configuration tuples of the script *)

Definition nonessential_dirs : list string :=
  [ "third_party/blink/tools";
    "third_party/blink/web_tests";
    "third_party/hunspell_dictionaries";
    "third_party/hunspell/tests";
    "third_party/jdk/current";
    "third_party/jdk/extras";
    "third_party/liblouis/src/tests/braille-specs";
    "third_party/xdg-utils/tests";
    "v8/test" ]
  ++
  (* lite tarball *)
  [ "android_webview";
    "build/linux/debian_bullseye_amd64-sysroot";
    "build/linux/debian_bullseye_i386-sysroot";
    "buildtools/reclient";
    "chrome/android";
    "chromecast";
    "ios";
    "native_client";
    "native_client_sdk";
    "third_party/android_platform";
    "third_party/angle/third_party/VK-GL-CTS";
    "third_party/apache-linux";
    "third_party/catapult/third_party/vinn/third_party/v8";
    "third_party/closure_compiler";
    "third_party/instrumented_libs";
    "third_party/llvm";
    "third_party/llvm-build";
    "third_party/llvm-build-tools";
    "third_party/node/linux";
    "third_party/rust-src";
    "third_party/rust-toolchain";
    "third_party/webgl" ].

Definition ESSENTIAL_FILES : list string :=
  [ "chrome/test/data/webui/i18n_process_css_test.html";
    "chrome/test/data/webui/mojo/foobar.mojom";
    (* Allows the orchestrator_all target to work with gn gen *)
    "v8/test/torque/test-torque.tq" ].

Definition ESSENTIAL_GIT_DIRS : list string :=
  [ (* The .git subdirs in the Rust checkout need to exist to build rustc. *)
    "third_party/rust-src/" ].

Definition TEST_DIRS : list string :=
  [ "base/tracing/test/data";
    "chrome/test/data";
    "components/test/data";
    "content/test/data/accessibility";
    "content/test/data/gpu";
    "content/test/data/media";
    "courgette/testdata";
    "extensions/test/data";
    "media/test/data";
    "native_client/src/trusted/service_runtime/testdata";
    "testing/libfuzzer/fuzzers/wasm_corpus";
    "third_party/blink/perf_tests";
    "third_party/breakpad/breakpad/src/processor/testdata";
    "third_party/catapult/tracing/test_data";
    "third_party/dawn/test";
    "third_party/expat/src/testdata";
    "third_party/harfbuzz-ng/src/test";
    "third_party/llvm/llvm/test";
    "third_party/ots/src/tests/fonts";
    "third_party/rust-src/src/gcc/gcc/testsuite";
    "third_party/rust-src/src/llvm-project/clang/test";
    "third_party/rust-src/src/llvm-project/llvm/test";
    "third_party/screen-ai/linux/resources";
    "third_party/sqlite/src/test";
    "third_party/swiftshader/tests/regres";
    "third_party/test_fonts/test_fonts";
    "tools/perf/testdata" ].

(** [x in t] for a tuple of strings. *)
Definition py_in (x : string) (t : list string) : bool := existsb (String.eqb x) t.

(** [any(p(x) for x in s)] over a set. *)
Definition py_any (p : string -> bool) (s : gset string) : bool :=
  existsb p (elements s).

(** [r'\.(gn|gni|grd|grdp|isolate|pydeps)(\.\S+)?$'] *)
Definition keep_pattern : re.regex :=
  re.Seq (re.Chr ".")
    (re.Seq
       (re.Alt (re.Str "gn") (re.Alt (re.Str "gni") (re.Alt (re.Str "grd")
          (re.Alt (re.Str "grdp") (re.Alt (re.Str "isolate") (re.Str "pydeps"))))))
       (re.Seq (re.Opt (re.Seq (re.Chr ".") (re.PlusClass re.non_space)))
          re.Dollar)).

(** ** What the operating system reports about a path *)

Inductive file_kind : Type := S_IFREG | S_IFDIR | S_IFOTHER.

(** [lstat_islnk]: [os.lstat] finds a symbolic link at the path.
    [stat_kind]: what [os.stat], which follows links, finds; [None] when it
    fails (nothing there, or a link whose target does not exist). *)
Record path_facts : Type := {
  lstat_islnk : bool;
  stat_kind : option file_kind
}.

Definition islink (f : path_facts) : bool := lstat_islnk f.
Definition exists_ (f : path_facts) : bool :=
  match stat_kind f with Some _ => true | None => false end.
Definition isfile (f : path_facts) : bool :=
  match stat_kind f with Some S_IFREG => true | _ => false end.
Definition isdir (f : path_facts) : bool :=
  match stat_kind f with Some S_IFDIR => true | _ => false end.

(** ** [MyTarFile]: the attributes set by the four setters *)

Record MyTarFile : Type := {
  __remove_nonessential_files : bool;
  __verbose : bool;
  __src_dir : string;
  __mtime : Z
}.

(** The guard of [MyTarFile.add] that skipped the entry. *)
Inductive skip_rule : Type :=
| BrokenSymlink      (* line 153 *)
| BytecodeCache      (* line 158 *)
| VcsOrOutDir        (* line 162 *)
| GitMetadata        (* line 170 *)
| ChangeLogPath      (* line 179 *)
| NonessentialDir.   (* line 195 *)

Inductive verdict : Type :=
| Skipped (rule : skip_rule)   (* [__report_skipped(name); return] *)
| Added.                       (* [__report_added(name)], then [TarFile.add] *)

Section Filter.

(** [os.getcwd()], which [os.path.relpath] consults for relative paths. *)
Variable cwd : string.

Definition rel_name_of (self : MyTarFile) (name : string) : option string :=
  os_path.relpath cwd name (__src_dir self).

(** The test of line 195-196 on the relative name. *)
Definition in_nonessential_dir (rel_name : string) : bool :=
  py_any (fun path =>
            String.eqb rel_name path || str.startswith rel_name (path +:+ "/"))
         (list_to_set nonessential_dirs ∪ list_to_set TEST_DIRS).

(** [keep_file] of line 189. *)
Definition keep_file (rel_name file_name : string) : bool :=
  re.search keep_pattern file_name || py_in rel_name ESSENTIAL_FILES.

(** The guards of [MyTarFile.add], lines 153-199, in the order of the
    source, on [rel_name], [file_path] and [file_name] of lines 150-151. *)
Definition guards (self : MyTarFile) (f : path_facts)
    (name rel_name file_path file_name : string) : verdict :=
  if islink f && negb (exists_ f) then Skipped BrokenSymlink
  else if String.eqb file_name "__pycache__" || str.endswith file_name ".pyc"
  then Skipped BytecodeCache
  else if py_in file_name [".svn"; "out"]
          && negb (str.contains "node_modules" file_path)
  then Skipped VcsOrOutDir
  else if String.eqb file_name ".git"
          && negb (existsb (str.startswith rel_name) ESSENTIAL_GIT_DIRS)
  then Skipped GitMetadata
  else if __remove_nonessential_files self then
    if str.contains "ChangeLog" name then Skipped ChangeLogPath
    else if negb (keep_file rel_name file_name)
            && (in_nonessential_dir rel_name && (isfile f || islink f))
    then Skipped NonessentialDir
    else Added
  else Added.

(** [MyTarFile.add] up to its last two statements: what becomes of the
    entry [name].  [None]: [os.path.relpath] raised [ValueError]. *)
Definition add_check (self : MyTarFile) (name : string) (f : path_facts)
    : option verdict :=
  match rel_name_of self name with
  | None => None
  | Some rel_name =>
      let '(file_path, file_name) := os_path.split name in
      Some (guards self f name rel_name file_path file_name)
  end.

End Filter.

(** ** [tarfile.TarInfo] and the normalizer [MyTarFile.__filter] *)

Inductive tar_type : Type :=
| REGTYPE | SYMTYPE | CHRTYPE | BLKTYPE | DIRTYPE | FIFOTYPE.

Module TarInfo.
Record t : Type := {
  name : string;
  mode : Z;
  uid : Z;
  gid : Z;
  size : Z;
  mtime : Z;
  chksum : Z;
  type : tar_type;
  linkname : string;
  uname : string;
  gname : string;
  devmajor : Z;
  devminor : Z;
  offset : Z;
  offset_data : Z;
  pax_headers : gmap string string
}.

Definition isreg (ti : t) : bool :=
  match type ti with REGTYPE => true | _ => false end.
Definition isdir (ti : t) : bool :=
  match type ti with DIRTYPE => true | _ => false end.
End TarInfo.

(** [stat.S_IWUSR] *)
Definition S_IWUSR : Z := 0x80.      (* 0o200 *)

(** [MyTarFile.__filter], lines 139-146: six assignments to the record. *)
Definition __filter (self : MyTarFile) (tar_info : TarInfo.t) : TarInfo.t :=
  {| TarInfo.name := TarInfo.name tar_info;
     TarInfo.mode := Z.lor (TarInfo.mode tar_info) S_IWUSR;
     TarInfo.uid := 0;
     TarInfo.gid := 0;
     TarInfo.size := TarInfo.size tar_info;
     TarInfo.mtime := __mtime self;
     TarInfo.chksum := TarInfo.chksum tar_info;
     TarInfo.type := TarInfo.type tar_info;
     TarInfo.linkname := TarInfo.linkname tar_info;
     TarInfo.uname := "0";
     TarInfo.gname := "0";
     TarInfo.devmajor := TarInfo.devmajor tar_info;
     TarInfo.devminor := TarInfo.devminor tar_info;
     TarInfo.offset := TarInfo.offset tar_info;
     TarInfo.offset_data := TarInfo.offset_data tar_info;
     TarInfo.pax_headers := TarInfo.pax_headers tar_info |}.

(** ** The source tree as the traversal sees it *)

(** The fields of [os.lstat(name)] that [gettarinfo] copies. *)
Record stat_result : Type := {
  st_mode : Z;
  st_uid : Z;
  st_gid : Z;
  st_size : Z;
  st_mtime : Z
}.

Inductive special_kind : Type :=
| Fifo
| CharDevice (major minor : Z)
| BlockDevice (major minor : Z)
| Socket.

(** A filesystem object with what lies below it.  [entries] of a directory
    are in the order in which [os.listdir] returns them.  A symbolic link
    carries [os.readlink] and what [os.stat] finds behind it. *)
#[warnings="-register-all"]
Inductive fsnode : Type :=
| File (st : stat_result)
| Directory (st : stat_result) (entries : list (string * fsnode))
| Symlink (st : stat_result) (readlink : string) (target : option file_kind)
| Special (st : stat_result) (kind : special_kind).

Definition lstat (node : fsnode) : stat_result :=
  match node with
  | File st | Directory st _ | Symlink st _ _ | Special st _ => st
  end.

Definition facts_of (node : fsnode) : path_facts :=
  match node with
  | File _ => {| lstat_islnk := false; stat_kind := Some S_IFREG |}
  | Directory _ _ => {| lstat_islnk := false; stat_kind := Some S_IFDIR |}
  | Symlink _ _ target => {| lstat_islnk := true; stat_kind := target |}
  | Special _ _ => {| lstat_islnk := false; stat_kind := Some S_IFOTHER |}
  end.

(** What no path: [os.lstat] and [os.stat] both fail. *)
Definition no_entry : path_facts := {| lstat_islnk := false; stat_kind := None |}.

(** The machine the script runs on: the working directory and the user and
    group databases ([pwd.getpwuid(uid)[0]], [grp.getgrgid(gid)[0]]; [None]
    for [KeyError]). *)
Record Host : Type := {
  getcwd : string;
  getpwuid : Z -> option string;
  getgrgid : Z -> option string
}.

(** ** The archive being written, standard output, and exceptions *)

Record archive : Type := {
  members : list TarInfo.t;   (* the records passed to [addfile], in order *)
  stdout : list string        (* the lines printed *)
}.

Inductive exn : Type := ValueError | TypeError | OSError.

Inductive result (A : Type) : Type :=
| Return (a : A)
| Raise (e : exn).
Arguments Return {A} a.
Arguments Raise {A} e.

(** Statements: they change the archive and the output, and return or raise. *)
Definition io (A : Type) : Type := archive -> result A * archive.

Definition ret {A} (a : A) : io A := fun s => (Return a, s).
Definition raise {A} (e : exn) : io A := fun s => (Raise e, s).
Definition bind {A B} (m : io A) (k : A -> io B) : io B :=
  fun s =>
    match m s with
    | (Return a, s') => k a s'
    | (Raise e, s') => (Raise e, s')
    end.

Notation "m >> k" := (bind m (fun _ => k)) (at level 62, right associativity).

Definition print (line : string) : io unit :=
  fun s => (Return tt, {| members := members s; stdout := stdout s ++ [line] |}).

(** [TarFile.addfile(tarinfo)] *)
Definition addfile (tarinfo : TarInfo.t) : io unit :=
  fun s => (Return tt, {| members := members s ++ [tarinfo]; stdout := stdout s |}).

(** [for x in xs: body(x)] *)
Fixpoint for_each {A} (xs : list A) (body : A -> io unit) : io unit :=
  match xs with
  | [] => ret tt
  | x :: xs' => body x >> for_each xs' body
  end.

Definition TAB : string := String "009"%char EmptyString.
Definition QUOTE : string := String "034"%char EmptyString.

(** [__report_skipped] and [__report_added], lines 131-137. *)
Definition __report_skipped (self : MyTarFile) (name : string) : io unit :=
  if __verbose self then print ("D" +:+ TAB +:+ name) else ret tt.
Definition __report_added (self : MyTarFile) (name : string) : io unit :=
  if __verbose self then print ("A" +:+ TAB +:+ name) else ret tt.

(** ** [tarfile.TarFile.gettarinfo] and [tarfile.TarFile.add] *)

(** [gettarinfo(name, arcname)] on the object at [name]; [None] for a type
    tar cannot hold (a socket).  Hard links are not followed up: a regular
    file is always of type [REGTYPE]. *)
Definition gettarinfo (host : Host) (node : fsnode) (arcname : string)
    : option TarInfo.t :=
  let arcname := str.lstrip arcname "/"%char in
  let statres := lstat node in
  let kind : option (tar_type * string * (Z * Z)) :=
    match node with
    | File _ => Some (REGTYPE, EmptyString, (0, 0))
    | Directory _ _ => Some (DIRTYPE, EmptyString, (0, 0))
    | Symlink _ linkname _ => Some (SYMTYPE, linkname, (0, 0))
    | Special _ Fifo => Some (FIFOTYPE, EmptyString, (0, 0))
    | Special _ (CharDevice major minor) => Some (CHRTYPE, EmptyString, (major, minor))
    | Special _ (BlockDevice major minor) => Some (BLKTYPE, EmptyString, (major, minor))
    | Special _ Socket => None
    end in
  match kind with
  | None => None
  | Some (type, linkname, (major, minor)) =>
      Some {| TarInfo.name := arcname;
              TarInfo.mode := st_mode statres;
              TarInfo.uid := st_uid statres;
              TarInfo.gid := st_gid statres;
              TarInfo.size :=
                match type with REGTYPE => st_size statres | _ => 0 end;
              TarInfo.mtime := st_mtime statres;
              TarInfo.chksum := 0;
              TarInfo.type := type;
              TarInfo.linkname := linkname;
              TarInfo.uname := default EmptyString (getpwuid host (st_uid statres));
              TarInfo.gname := default EmptyString (getgrgid host (st_gid statres));
              TarInfo.devmajor := major;
              TarInfo.devminor := minor;
              TarInfo.offset := 0;
              TarInfo.offset_data := 0;
              TarInfo.pax_headers := ∅ |}
  end.

(** A directory entry together with [self.add] on the object behind it. *)
Definition child_add : Type := string * (string -> string -> io unit).

(** [sorted(...)], by the name of the entry: a stable insertion sort on the
    order of Python strings (code point by code point). *)
Fixpoint insert_by {A} (key : A -> string) (x : A) (l : list A) : list A :=
  match l with
  | [] => [x]
  | y :: l' =>
      if String.leb (key x) (key y) then x :: l else y :: insert_by key x l'
  end.
Definition sorted_by {A} (key : A -> string) (l : list A) : list A :=
  fold_right (insert_by key) [] l.

(** [TarFile.add(self, name, arcname, recursive=True, filter=filter)],
    with the object at [name] and, for a directory, [self.add] on each of
    its entries.  The loop is
    [for f in sorted(os.listdir(name)): self.add(join(name, f), join(arcname, f))]. *)
Definition TarFile_add (host : Host) (node : fsnode) (children : list child_add)
    (name arcname : string) (filter : TarInfo.t -> option TarInfo.t) : io unit :=
  match gettarinfo host node arcname with
  | None => ret tt
  | Some tarinfo =>
      match filter tarinfo with
      | None => ret tt
      | Some tarinfo =>
          if TarInfo.isreg tarinfo then addfile tarinfo
          else if TarInfo.isdir tarinfo then
            addfile tarinfo >>
            for_each (sorted_by fst children)
              (fun child =>
                 child.2 (os_path.join2 name child.1) (os_path.join2 arcname child.1))
          else addfile tarinfo
      end
  end.

(** ** [MyTarFile.add], lines 149-203 *)

Fixpoint add (host : Host) (self : MyTarFile) (node : fsnode)
    (name arcname : string) {struct node} : io unit :=
  match add_check (getcwd host) self name (facts_of node) with
  | None => raise ValueError
  | Some (Skipped _) => __report_skipped self name
  | Some Added =>
      __report_added self name >>
      TarFile_add host node
        match node with
        | Directory _ entries =>
            map (fun entry => let '(f, child) := entry in (f, add host self child))
                entries
        | _ => []
        end
        name arcname (fun tarinfo => Some (__filter self tarinfo))
  end.

(** ** [main], lines 206-280 *)

(** The values [parser.parse_args(argv)] returns in [options]. *)
Module Options.
Record t : Type := {
  basename : option string;
  remove_nonessential_files : bool;
  test_data : bool;              (* the truth value: absent is [None] *)
  xz : bool;
  verbose : bool;
  progress : bool;
  src_dir : option string;
  version : option string
}.
End Options.

(** The truth value of an optional string: [None] and [''] are false. *)
Definition truthy (o : option string) : bool :=
  match o with
  | Some s => negb (String.eqb s EmptyString)
  | None => false
  end.

(** What a run of [main] meets outside the script. *)
Record World : Type := {
  host : Host;
  (* the object that [os.lstat(path)] finds, if any *)
  lookup : string -> option fsnode;
  (* whether [open(path, 'w')] succeeds *)
  can_open_output : string -> bool;
  (* whether [subprocess.Popen(['xz', ...])] succeeds *)
  can_start_xz : bool;
  (* [int(f.read())] on [open(path, 'r')], or the exception of either *)
  read_int : string -> result Z;
  (* the exit status of the xz process, which [xz.wait()] returns *)
  xz_exit_status : Z
}.

Definition facts_at (w : World) (path : string) : path_facts :=
  match lookup w path with
  | Some node => facts_of node
  | None => no_entry
  end.

(** [archive.add(name, arcname=arcname)] on a path.  Where nothing is at
    the path the guards run on [no_entry] and [os.lstat] in [gettarinfo]
    raises. *)
Definition add_path (w : World) (self : MyTarFile) (name arcname : string)
    : io unit :=
  match lookup w name with
  | Some node => add (host w) self node name arcname
  | None =>
      match add_check (getcwd (host w)) self name no_entry with
      | None => raise ValueError
      | Some (Skipped _) => __report_skipped self name
      | Some Added => __report_added self name >> raise OSError
      end
  end.

Definition LASTCHANGE : string := "build/util/LASTCHANGE.committime".

(** The archive object after the four setters, lines 244-253. *)
Definition new_archive (options : Options.t) (src_dir : string) (timestamp : Z)
    : MyTarFile :=
  {| __remove_nonessential_files := Options.remove_nonessential_files options;
     __verbose := Options.verbose options;
     __src_dir := src_dir;
     __mtime := timestamp |}.

(** The body of the [try] statement, lines 256-267. *)
Definition add_sources (w : World) (archive : MyTarFile) (options : Options.t)
    (src_dir output_basename : string) : io unit :=
  if Options.test_data options then
    for_each TEST_DIRS (fun directory =>
      let test_dir := os_path.join2 src_dir directory in
      if negb (isdir (facts_at w test_dir)) then
        (* A directory may not exist depending on the milestone we're
           building a tarball for. *)
        print (QUOTE +:+ test_dir +:+ QUOTE +:+ " not present; skipping.")
      else
        add_path w archive test_dir (os_path.join2 output_basename directory))
  else
    add_path w archive src_dir output_basename.

(** [main(argv)] after [parser.parse_args(argv)].  [archive.close()] in the
    [finally] clause writes no member and prints nothing, and an exception
    of the [try] body passes through it; its own failure on a pipe that a
    compressor has closed early is left out, as said at the top. *)
Definition main (w : World) (options : Options.t) (args : list string) : io Z :=
  if negb (length args =? 1)%nat then
    print "You must provide only one argument: output file name" >>
    print "(without .tar.xz extension)." >>
    ret 1
  else if negb (truthy (Options.version options)) then
    print "A version number must be provided via the --version option." >>
    ret 1
  else
    match Options.src_dir options with
    | None => raise TypeError          (* [os.path.exists(None)] *)
    | Some src_dir =>
        if negb (exists_ (facts_at w src_dir)) then
          print ("Cannot find the src directory " +:+ src_dir) >>
          ret 1
        else
          let arg0 := hd EmptyString args in
          let output_fullname := arg0 +:+ ".tar.xz" in
          let output_basename :=
            if truthy (Options.basename options)
            then default EmptyString (Options.basename options)
            else os_path.basename arg0 in
          if negb (can_open_output w output_fullname) then raise OSError
          else if negb (can_start_xz w) then raise OSError
          else
            match read_int w (os_path.join2 src_dir LASTCHANGE) with
            | Raise e => raise e
            | Return timestamp =>
                let archive := new_archive options src_dir timestamp in
                add_sources w archive options src_dir output_basename >>
                if negb (xz_exit_status w =? 0) then
                  print "xz -9 failed!" >>
                  ret 1
                else ret 0
            end
    end.

(** A run from an empty archive and an empty output. *)
Definition run_main (w : World) (options : Options.t) (args : list string)
    : result Z * archive :=
  main w options args {| members := []; stdout := [] |}.

(** ** Vocabulary of the properties *)

(** Every character of the string is in the class. *)
Fixpoint all_in_class (cls : ascii -> bool) (s : string) : bool :=
  match s with
  | EmptyString => true
  | String a s' => cls a && all_in_class cls s'
  end.

(** The six extensions of the pattern. *)
Definition build_extensions : list string :=
  ["gn"; "gni"; "grd"; "grdp"; "isolate"; "pydeps"].


(** ** Sample inputs *)

(** An archive object for a checkout at [/src]. *)
Definition archive_at (src : string) (remove : bool) : MyTarFile :=
  {| __remove_nonessential_files := remove; __verbose := true;
     __src_dir := src; __mtime := 1700000000 |}.

Definition regular_file : path_facts :=
  {| lstat_islnk := false; stat_kind := Some S_IFREG |}.
Definition directory : path_facts :=
  {| lstat_islnk := false; stat_kind := Some S_IFDIR |}.
Definition broken_link : path_facts :=
  {| lstat_islnk := true; stat_kind := None |}.


(** ** Vocabulary of the normalizer *)

(** The metadata of a member that the claims speak of. *)
Definition metadata (ti : TarInfo.t) : Z * Z * Z * string * string :=
  (TarInfo.mtime ti, TarInfo.uid ti, TarInfo.gid ti, TarInfo.uname ti,
   TarInfo.gname ti).

(** A member as [__filter] leaves it for the timestamp [ts]. *)
Definition normalized (ts : Z) (ti : TarInfo.t) : Prop :=
  metadata ti = (ts, 0, 0, "0", "0") /\ Z.testbit (TarInfo.mode ti) 7 = true.

(** [m] appends members, all of them satisfying [P], and lines of output. *)
Definition appends {A} (P : TarInfo.t -> Prop) (m : io A) : Prop :=
  forall s, exists ms out,
    members (m s).2 = (members s ++ ms)%list
    /\ stdout (m s).2 = (stdout s ++ out)%list
    /\ Forall P ms.

(** ** A sample checkout *)

Definition sample_stat (mode uid gid mtime : Z) : stat_result :=
  {| st_mode := mode; st_uid := uid; st_gid := gid; st_size := 12;
     st_mtime := mtime |}.

(** A small tree as the user [uid] of group [gid] checked it out at time
    [mtime], on a filesystem that lists the entries of a directory in the
    order [listing]; [0x8124] is [0o100444], [0x41ed] is [0o40755]. *)
Definition sample_tree_on (listing : list (string * fsnode) -> list (string * fsnode))
    (uid gid mtime : Z) : fsnode :=
  let file := File (sample_stat 0x8124 uid gid mtime) in
  let dir entries := Directory (sample_stat 0x41ed uid gid mtime) (listing entries) in
  dir [ ("v8", dir [ ("test", dir [("a.js", file); ("BUILD.gn", file)]);
                     ("out", dir [("x.o", file)]);
                     ("b.cc", file) ]);
        ("dead", Symlink (sample_stat 0xa1ff uid gid mtime) "nowhere" None);
        ("a.pyc", file);
        ("DEPS", file) ].

Definition sample_tree : Z -> Z -> Z -> fsnode := sample_tree_on (fun entries => entries).

Definition sample_host (user group : string) : Host :=
  {| getcwd := "/work";
     getpwuid := fun _ => Some user;
     getgrgid := fun _ => Some group |}.

(** A machine with the sample tree at [/src], whose compressor ends with
    [status]. *)
Definition sample_world (h : Host) (tree : fsnode) (status : Z) : World :=
  {| host := h;
     lookup := fun path => if String.eqb path "/src" then Some tree else None;
     can_open_output := fun _ => true;
     can_start_xz := true;
     read_int := fun path =>
       if String.eqb path "/src/build/util/LASTCHANGE.committime"
       then Return 1700000000 else Raise OSError;
     xz_exit_status := status |}.

Definition sample_options (remove test_data : bool) : Options.t :=
  {| Options.basename := None;
     Options.remove_nonessential_files := remove;
     Options.test_data := test_data;
     Options.xz := true;
     Options.verbose := false;
     Options.progress := false;
     Options.src_dir := Some "/src";
     Options.version := Some "1.2.3" |}.

(** The member that the first sample run writes for [v8/b.cc]. *)
Definition sample_member : TarInfo.t :=
  {| TarInfo.name := "chromium-1.2.3/v8/b.cc"; TarInfo.mode := 0x81a4;
     TarInfo.uid := 0; TarInfo.gid := 0; TarInfo.size := 12;
     TarInfo.mtime := 1700000000; TarInfo.chksum := 0;
     TarInfo.type := REGTYPE; TarInfo.linkname := EmptyString;
     TarInfo.uname := "0"; TarInfo.gname := "0";
     TarInfo.devmajor := 0; TarInfo.devminor := 0;
     TarInfo.offset := 0; TarInfo.offset_data := 0; TarInfo.pax_headers := ∅ |}.

(** ** Vocabulary of two runs *)

Definition no_stat : stat_result :=
  {| st_mode := 0; st_uid := 0; st_gid := 0; st_size := 0; st_mtime := 0 |}.

(** The source that a tree holds: the tree without what [os.lstat] reports
    of its objects and without the order in which [os.listdir] lists the
    entries of its directories, which are put in the order of their names.
    Names, kinds of objects, link targets and device numbers stay. *)
Fixpoint source_of (node : fsnode) : fsnode :=
  match node with
  | File _ => File no_stat
  | Directory _ entries =>
      Directory no_stat
        (sorted_by fst
           (map (fun entry => let '(f, child) := entry in (f, source_of child))
                entries))
  | Symlink _ readlink target => Symlink no_stat readlink target
  | Special _ kind => Special no_stat kind
  end.


(** A member by its name in the archive, with its metadata. *)
Definition entry_metadata (ti : TarInfo.t)
    : string * (Z * Z * Z * string * string) :=
  (TarInfo.name ti, metadata ti).




(** ** Vocabulary of the exit status *)

(** The four conditions of the exit status: the number of positional
    arguments is not one; no version is given; the source directory that is
    given does not exist; the compressor ends with a status other than 0. *)
Definition exit_conditions (w : World) (options : Options.t) (args : list string)
    : Prop :=
  length args <> 1%nat
  \/ truthy (Options.version options) = false
  \/ (exists src_dir, Options.src_dir options = Some src_dir
                      /\ exists_ (facts_at w src_dir) = false)
  \/ xz_exit_status w <> 0.

(** The notice of line 262 for a directory. *)
Definition skip_notice (test_dir : string) : string :=
  QUOTE +:+ test_dir +:+ QUOTE +:+ " not present; skipping.".

(** The sample machine without the provenance file. *)
Definition sample_world_without_provenance (status : Z) : World :=
  {| host := sample_host "alice" "staff";
     lookup := fun path =>
       if String.eqb path "/src" then Some (sample_tree 1000 50 1600000000)
       else None;
     can_open_output := fun _ => true;
     can_start_xz := true;
     read_int := fun _ => Raise OSError;
     xz_exit_status := status |}.


(** [m] returns, whatever the archive holds. *)
Definition returns (m : io unit) : Prop :=
  forall s, (m s).1 = Return tt.

(** ** More sample inputs *)

Definition link_to_directory : path_facts :=
  {| lstat_islnk := true; stat_kind := Some S_IFDIR |}.

(** The sample machine as Alice has it, with a compressor that succeeds. *)
Definition alice_world : World :=
  sample_world (sample_host "alice" "staff") (sample_tree 1000 50 1600000000) 0.

(** ** Vocabulary of two archive objects *)

(** Two statements take archives related by [R] to archives related by [R]
    and end the same way. *)
Definition rel_io (R : list TarInfo.t -> list TarInfo.t -> Prop) {A}
    (m1 m2 : io A) : Prop :=
  forall s1 s2, R (members s1) (members s2) ->
    (m1 s1).1 = (m2 s2).1 /\ R (members (m1 s1).2) (members (m2 s2).2).

(** The options with [--remove-nonessential-files] given. *)
Definition with_size_reduction (options : Options.t) : Options.t :=
  {| Options.basename := Options.basename options;
     Options.remove_nonessential_files := true;
     Options.test_data := Options.test_data options;
     Options.xz := Options.xz options;
     Options.verbose := Options.verbose options;
     Options.progress := Options.progress options;
     Options.src_dir := Options.src_dir options;
     Options.version := Options.version options |}.

(** The options with [--verbose] given or not. *)
Definition with_verbose (verbose : bool) (options : Options.t) : Options.t :=
  {| Options.basename := Options.basename options;
     Options.remove_nonessential_files := Options.remove_nonessential_files options;
     Options.test_data := Options.test_data options;
     Options.xz := Options.xz options;
     Options.verbose := verbose;
     Options.progress := Options.progress options;
     Options.src_dir := Options.src_dir options;
     Options.version := Options.version options |}.

(** The entries of a directory, each with [self.add] on the object behind
    it, as [MyTarFile.add] hands them to [TarFile.add]. *)
Definition children_of (add_child : fsnode -> string -> string -> io unit)
    (node : fsnode) : list child_add :=
  match node with
  | Directory _ entries =>
      map (fun entry => let '(f, child) := entry in (f, add_child child)) entries
  | _ => []
  end.


(** ** Vocabulary of the output *)

(** [m] prints nothing. *)
Definition silent {A} (m : io A) : Prop :=
  forall s, stdout (m s).2 = stdout s.

(** ** Vocabulary of the pattern *)

(** Where [$] matches: at the end, or before a newline that ends the
    string. *)
Definition line_end (s : string) : Prop :=
  s = EmptyString \/ s = String "010"%char EmptyString.

(** What the pattern allows after the extension: the end, or a dot and one
    or more characters that are not white space, and then the end. *)
Definition pattern_tail (tail : string) : Prop :=
  line_end tail
  \/ exists t e, tail = "." +:+ t +:+ e /\ t <> EmptyString
                 /\ all_in_class re.non_space t = true /\ line_end e.

(** ** More of the sample checkout *)

Definition sample_file : fsnode := File (sample_stat 0x8124 1000 50 1600000000).

Definition sample_socket : fsnode :=
  Special (sample_stat 0xc1ed 1000 50 1600000000) Socket.

Definition empty_archive : archive := {| members := []; stdout := [] |}.

(** A machine whose checkout is the directory [/build/out]. *)
Definition out_world : World :=
  {| host := sample_host "alice" "staff";
     lookup := fun path =>
       if String.eqb path "/build/out" then Some (sample_tree 1000 50 1600000000)
       else None;
     can_open_output := fun _ => true;
     can_start_xz := true;
     read_int := fun path =>
       if String.eqb path "/build/out/build/util/LASTCHANGE.committime"
       then Return 1700000000 else Raise OSError;
     xz_exit_status := 0 |}.

Definition out_options : Options.t :=
  {| Options.basename := None;
     Options.remove_nonessential_files := false;
     Options.test_data := false;
     Options.xz := true;
     Options.verbose := false;
     Options.progress := false;
     Options.src_dir := Some "/build/out";
     Options.version := Some "1.2.3" |}.

(** ** A setter on its own *)

(** [set_remove_nonessential_files], lines 115-117: the other attributes
    stay. *)
Definition set_remove_nonessential_files (self : MyTarFile) (remove : bool)
    : MyTarFile :=
  {| __remove_nonessential_files := remove;
     __verbose := __verbose self;
     __src_dir := __src_dir self;
     __mtime := __mtime self |}.
(** * Properties *)

Local Open Scope list_scope.

(** ** The library functions on examples *)

Example split_file : os_path.split "/src/v8/test/a.js" = ("/src/v8/test", "a.js").
Proof. reflexivity. Qed.

Example split_root : os_path.split "/out" = ("/", "out").
Proof. reflexivity. Qed.

Example split_bare : os_path.split "out" = (EmptyString, "out").
Proof. reflexivity. Qed.

Example split_trailing_slash : os_path.split "/src//a/" = ("/src//a", EmptyString).
Proof. reflexivity. Qed.

Example normpath_dots : os_path.normpath "/a/./b//../c/" = "/a/c".
Proof. reflexivity. Qed.

Example normpath_leading_up : os_path.normpath "../../a/.." = "../..".
Proof. reflexivity. Qed.

Example normpath_two_slashes : os_path.normpath "//a" = "//a".
Proof. reflexivity. Qed.

Example normpath_three_slashes : os_path.normpath "///a" = "/a".
Proof. reflexivity. Qed.

Example relpath_inside :
  os_path.relpath "/home" "/src/v8/test/a.js" "/src" = Some "v8/test/a.js".
Proof. reflexivity. Qed.

Example relpath_self : os_path.relpath "/home" "/src" "/src/" = Some ".".
Proof. reflexivity. Qed.

Example relpath_outside :
  os_path.relpath "/home" "/other/a" "/src/x" = Some "../../other/a".
Proof. reflexivity. Qed.

Example relpath_relative :
  os_path.relpath "/home/me" "src/a" "src" = Some "a".
Proof. reflexivity. Qed.

Example relpath_empty : os_path.relpath "/home" EmptyString "/src" = None.
Proof. reflexivity. Qed.

Example join_absolute : os_path.join "/src" ["a"; "/b"; "c"] = "/b/c".
Proof. reflexivity. Qed.

Example keep_pattern_on_names :
  map (re.search keep_pattern)
    [ "BUILD.gn"; "rules.gni.orig"; "a.grdp"; "x.pydeps.1.bak";
      "BUILD.gn" +:+ String "010"%char EmptyString;
      "BUILD.gn.a b"; "BUILD.gnx"; "gn"; ".git"; "out"; "foo.html" ]
  = [ true; true; true; true; true; false; false; false; false; false; false ].
Proof. vm_compute. reflexivity. Qed.

Example sorted_like_python :
  sorted_by (fun x => x) ["b"; "a.js"; "BUILD.gn"; "a"; "_x"; "B"]
  = ["B"; "BUILD.gn"; "_x"; "a"; "a.js"; "b"].
Proof. reflexivity. Qed.

(** ** Strings *)

Lemma app_cons (a : ascii) (s t : string) : String a s +:+ t = String a (s +:+ t).
Proof. reflexivity. Qed.

Lemma app_empty_l (s : string) : EmptyString +:+ s = s.
Proof. reflexivity. Qed.

Lemma app_empty_r (s : string) : s +:+ EmptyString = s.
Proof. induction s as [|a s IH]; [reflexivity|]. rewrite app_cons, IH. reflexivity. Qed.

Lemma app_assoc_str (s t u : string) : (s +:+ t) +:+ u = s +:+ (t +:+ u).
Proof.
  induction s as [|a s IH]; [reflexivity|].
  rewrite !app_cons, IH. reflexivity.
Qed.

Lemma prefix_cons (a b : ascii) (t s : string) :
  String.prefix (String a t) (String b s) = true <-> a = b /\ String.prefix t s = true.
Proof.
  simpl. destruct (Ascii.ascii_dec a b) as [->|Hne].
  - split; [intros H; split; [reflexivity|exact H] | intros [_ H]; exact H].
  - split; [discriminate | intros [Hab _]; contradiction].
Qed.

Lemma startswith_spec (s p : string) :
  str.startswith s p = true <-> exists rest, s = p +:+ rest.
Proof.
  unfold str.startswith. revert s.
  induction p as [|a p IH]; intros s.
  - split; [intros _; exists s; reflexivity | intros _; destruct s; reflexivity].
  - destruct s as [|b s].
    + split; [discriminate | intros [rest H]; discriminate].
    + rewrite prefix_cons, IH. split.
      * intros [-> [rest ->]]. exists rest. reflexivity.
      * intros [rest H]. rewrite app_cons in H. injection H as -> ->.
        split; [reflexivity | exists rest; reflexivity].
Qed.

Lemma startswith_app (p rest : string) : str.startswith (p +:+ rest) p = true.
Proof. apply startswith_spec. exists rest. reflexivity. Qed.

Lemma drop_app (t s : string) : str.drop (String.length t) (t +:+ s) = s.
Proof. induction t as [|a t IH]; [destruct s; reflexivity | exact IH]. Qed.

Lemma contains_unfold (sub s : string) :
  str.contains sub s =
  if String.prefix sub s then true
  else match s with
       | EmptyString => false
       | String _ s' => str.contains sub s'
       end.
Proof. destruct s; reflexivity. Qed.

Lemma contains_spec (sub s : string) :
  str.contains sub s = true <-> exists a b, s = a +:+ sub +:+ b.
Proof.
  induction s as [|c s IH]; rewrite contains_unfold.
  - destruct (String.prefix sub EmptyString) eqn:Hp.
    + split; [intros _ | reflexivity].
      apply (startswith_spec EmptyString sub) in Hp as [rest Hp].
      exists EmptyString, rest. exact Hp.
    + split; [discriminate|]. intros (a & b & H).
      destruct a as [|? ?]; [|discriminate].
      assert (str.startswith EmptyString sub = true) as Hs
        by (apply startswith_spec; exists b; exact H).
      unfold str.startswith in Hs. congruence.
  - destruct (String.prefix sub (String c s)) eqn:Hp.
    + split; [intros _ | reflexivity].
      apply (startswith_spec (String c s) sub) in Hp as [rest Hp].
      exists EmptyString, rest. exact Hp.
    + rewrite IH. split.
      * intros (a & b & ->). exists (String c a), b. reflexivity.
      * intros (a & b & H). destruct a as [|c' a].
        -- assert (str.startswith (String c s) sub = true) as Hs
             by (apply startswith_spec; exists b; exact H).
           unfold str.startswith in Hs. congruence.
        -- rewrite app_cons in H. injection H as _ ->. exists a, b. reflexivity.
Qed.

Lemma endswith_unfold (s suffix : string) :
  str.endswith s suffix =
  if String.eqb s suffix then true
  else match s with
       | EmptyString => false
       | String _ s' => str.endswith s' suffix
       end.
Proof. destruct s; reflexivity. Qed.

Lemma endswith_spec (s suffix : string) :
  str.endswith s suffix = true <-> exists a, s = a +:+ suffix.
Proof.
  induction s as [|c s IH]; rewrite endswith_unfold.
  - destruct (String.eqb_spec EmptyString suffix) as [<-|Hne].
    + split; [intros _; exists EmptyString; reflexivity | reflexivity].
    + split; [discriminate|]. intros [a H].
      destruct a; [|discriminate]. rewrite app_empty_l in H. congruence.
  - destruct (String.eqb_spec (String c s) suffix) as [<-|Hne].
    + split; [intros _; exists EmptyString; reflexivity | reflexivity].
    + rewrite IH. split.
      * intros [a ->]. exists (String c a). reflexivity.
      * intros [a H]. destruct a as [|c' a].
        -- rewrite app_empty_l in H. congruence.
        -- rewrite app_cons in H. injection H as _ ->. exists a. reflexivity.
Qed.

Lemma py_in_spec (x : string) (t : list string) : py_in x t = true <-> In x t.
Proof.
  unfold py_in. rewrite existsb_exists. split.
  - intros (y & Hy & Heq). apply String.eqb_eq in Heq. subst. exact Hy.
  - intros H. exists x. split; [exact H | apply String.eqb_refl].
Qed.

Lemma py_in_false (x : string) (t : list string) : py_in x t = false <-> ~ In x t.
Proof.
  rewrite <- py_in_spec. destruct (py_in x t); split; congruence.
Qed.

(** [any(...)] over the union of the two sets is a search through both tuples. *)
Lemma py_any_union (p : string -> bool) (t1 t2 : list string) :
  py_any p (list_to_set t1 ∪ list_to_set t2) = true
  <-> exists x, (In x t1 \/ In x t2) /\ p x = true.
Proof.
  unfold py_any. rewrite existsb_exists. split.
  - intros (x & Hx & Hp). exists x. split; [|exact Hp].
    apply list_elem_of_In, elem_of_elements, elem_of_union in Hx.
    destruct Hx as [Hx|Hx]; apply elem_of_list_to_set, list_elem_of_In in Hx; auto.
  - intros (x & Hx & Hp). exists x. split; [|exact Hp].
    apply list_elem_of_In, elem_of_elements, elem_of_union.
    destruct Hx as [Hx|Hx]; [left|right];
      apply elem_of_list_to_set, list_elem_of_In; exact Hx.
Qed.

(** ** The regular expression *)

Lemma search_suffix (r : re.regex) (stem s : string) :
  re.search r s = true -> re.search r (stem +:+ s) = true.
Proof.
  intros H. induction stem as [|a stem IH]; [exact H|].
  rewrite app_cons. simpl. rewrite IH. apply orb_true_r.
Qed.

Lemma search_here (r : re.regex) (s : string) :
  re.accept r s (fun _ => true) = true -> re.search r s = true.
Proof. intros H. destruct s; cbn [re.search]; rewrite H; reflexivity. Qed.

Lemma prefix_app (t s : string) : String.prefix t (t +:+ s) = true.
Proof. exact (startswith_app t s). Qed.

Lemma plus_class_all (cls : ascii -> bool) (t : string) (k : string -> bool) :
  t <> EmptyString -> all_in_class cls t = true -> k EmptyString = true ->
  re.plus_class cls t k = true.
Proof.
  intros Hne Hall Hk. induction t as [|a t IH]; [congruence|].
  simpl in *. apply andb_true_iff in Hall as [Ha Hall]. rewrite Ha. simpl.
  destruct t as [|b t]; [rewrite Hk; reflexivity|].
  rewrite IH; [apply orb_true_r | discriminate | exact Hall].
Qed.

(** The pattern matches a name that ends in a dot, one of the extensions
    and nothing more. *)
Lemma keep_pattern_plain (stem ext : string) :
  In ext build_extensions ->
  re.search keep_pattern (stem +:+ "." +:+ ext) = true.
Proof.
  intros Hext. apply search_suffix, search_here.
  simpl in Hext.
  destruct Hext as [<-|[<-|[<-|[<-|[<-|[<-|[]]]]]]]; vm_compute; reflexivity.
Qed.

(** ... and one that goes on with a dot and characters that are not spaces. *)
Lemma keep_pattern_suffixed (stem ext t : string) :
  In ext build_extensions ->
  t <> EmptyString -> all_in_class re.non_space t = true ->
  re.search keep_pattern (stem +:+ "." +:+ ext +:+ "." +:+ t) = true.
Proof.
  intros Hext Hne Hall. apply search_suffix, search_here.
  assert (forall e, re.accept
            (re.Seq (re.Str e)
               (re.Seq (re.Opt (re.Seq (re.Chr ".") (re.PlusClass re.non_space)))
                  re.Dollar))
            (e +:+ "." +:+ t) (fun _ => true) = true) as Hone.
  { intros e. cbn [re.accept]. rewrite prefix_app, drop_app.
    change ("." +:+ t) with (String "."%char t). cbv iota.
    rewrite Ascii.eqb_refl. cbn [andb].
    rewrite plus_class_all; [reflexivity | exact Hne | exact Hall | reflexivity]. }
  change ("." +:+ ext +:+ "." +:+ t) with (String "."%char (ext +:+ "." +:+ t)).
  unfold keep_pattern. cbn [re.accept]. rewrite Ascii.eqb_refl. cbn [andb].
  specialize (Hone ext). cbn [re.accept] in Hone.
  simpl in Hext.
  destruct Hext as [<-|[<-|[<-|[<-|[<-|[<-|[]]]]]]];
    rewrite Hone; rewrite ?orb_true_r; reflexivity.
Qed.

(** ** The archive filter *)

Lemma add_check_guards (cwd : string) (self : MyTarFile) (name : string)
    (f : path_facts) (rel : string) :
  rel_name_of cwd self name = Some rel ->
  add_check cwd self name f
  = Some (guards self f name rel (os_path.dirname name) (os_path.basename name)).
Proof.
  intros H. unfold add_check, os_path.dirname, os_path.basename.
  rewrite H. destruct (os_path.split name); reflexivity.
Qed.

Lemma rel_name_of_nonempty (cwd : string) (self : MyTarFile) (name : string) :
  name <> EmptyString -> exists rel, rel_name_of cwd self name = Some rel.
Proof.
  intros Hne. unfold rel_name_of, os_path.relpath.
  destruct (String.eqb_spec name EmptyString) as [->|_]; [congruence|].
  cbv zeta. match goal with |- context [match ?l with [] => _ | _ :: _ => _ end] =>
    destruct l end; eauto.
Qed.

Lemma isfile_exists (f : path_facts) : isfile f = true -> exists_ f = true.
Proof. unfold isfile, exists_. destruct (stat_kind f) as [[| |]|]; congruence. Qed.

Lemma not_broken_of_isfile (f : path_facts) :
  isfile f = true -> islink f && negb (exists_ f) = false.
Proof. intros H. rewrite (isfile_exists f H). apply andb_false_r. Qed.

Lemma startswith_any_spec (rel : string) (prefixes : list string) :
  existsb (str.startswith rel) prefixes = true
  <-> exists p, In p prefixes /\ str.startswith rel p = true.
Proof. apply existsb_exists. Qed.

Lemma in_nonessential_dir_spec (rel : string) :
  in_nonessential_dir rel = true
  <-> exists dir, (In dir nonessential_dirs \/ In dir TEST_DIRS)
                  /\ (rel = dir \/ exists rest, rel = dir +:+ "/" +:+ rest).
Proof.
  unfold in_nonessential_dir. rewrite py_any_union.
  split; intros (dir & Hin & H); exists dir; (split; [exact Hin|]).
  - apply orb_true_iff in H as [H|H].
    + left. apply String.eqb_eq. exact H.
    + right. apply startswith_spec in H as [rest ->].
      exists rest. apply app_assoc_str.
  - apply orb_true_iff. destruct H as [->|[rest ->]].
    + left. apply String.eqb_refl.
    + right. apply startswith_spec. exists rest. symmetry. apply app_assoc_str.
Qed.

(** With size reduction off, the verdict rests on the three guards on the
    base name alone. *)
Lemma guards_off (self : MyTarFile) (f : path_facts) (name rel d b : string) :
  __remove_nonessential_files self = false ->
  islink f && negb (exists_ f) = false ->
  guards self f name rel d b = Added
  <-> (b <> "__pycache__" /\ str.endswith b ".pyc" = false)
      /\ (In b [".svn"; "out"] -> str.contains "node_modules" d = true)
      /\ (b = ".git" -> exists p, In p ESSENTIAL_GIT_DIRS /\ str.startswith rel p = true).
Proof.
  intros Hoff Hlive. unfold guards. rewrite Hoff, Hlive.
  rewrite <- startswith_any_spec, <- (py_in_spec b).
  destruct (String.eqb_spec b "__pycache__") as [Hc|Hc];
    destruct (str.endswith b ".pyc");
    destruct (py_in b [".svn"; "out"]);
    destruct (str.contains "node_modules" d);
    destruct (String.eqb_spec b ".git") as [Hg|Hg];
    destruct (existsb (str.startswith rel) ESSENTIAL_GIT_DIRS);
    cbn [orb andb negb]; split;
    try (intros; discriminate);
    try (intros [[? ?] [? ?]]; congruence);
    try (intros [[? ?] [H1 H2]];
         try specialize (H1 eq_refl); try specialize (H2 Hg); congruence);
    try (intros _; repeat split; intros; congruence).
Qed.

Lemma guards_on_listed_file (self : MyTarFile) (f : path_facts) (name rel d b : string) :
  __remove_nonessential_files self = true ->
  isfile f = true ->
  keep_file rel b = false ->
  in_nonessential_dir rel = true ->
  exists rule, guards self f name rel d b = Skipped rule.
Proof.
  intros Hon Hfile Hkeep Hdir. unfold guards.
  rewrite Hon, Hkeep, Hdir, Hfile. cbn [negb andb orb].
  repeat match goal with
         | |- context [if ?c then _ else _] => destruct c; [eexists; reflexivity|]
         end.
  eexists; reflexivity.
Qed.

(** C1, as the code has it.  A regular file at or below a listed
    Nonessential or Test Data Directory, whose base name does not match the
    build-file pattern and whose relative path is no Essential File
    Override, is dropped when size reduction is on.  When it is off the
    file is kept exactly when none of the guards that hold in every mode
    drops it: its base name is not [__pycache__] and does not end in
    [.pyc]; is [.svn] or [out] only with [node_modules] in the parent
    path; is [.git] only under an Essential Git-Metadata Prefix.  The file
    [third_party/blink/web_tests/foo.html] is such a file: dropped with
    size reduction on, kept with it off. *)
Theorem nonessential_file_by_mode
    (cwd : string) (self : MyTarFile) (name : string) (f : path_facts)
    (rel dir : string) :
  rel_name_of cwd self name = Some rel ->
  isfile f = true ->
  In dir nonessential_dirs \/ In dir TEST_DIRS ->
  rel = dir \/ (exists rest, rel = dir +:+ "/" +:+ rest) ->
  re.search keep_pattern (os_path.basename name) = false ->
  ~ In rel ESSENTIAL_FILES ->
  (__remove_nonessential_files self = true ->
     exists rule, add_check cwd self name f = Some (Skipped rule))
  /\ (__remove_nonessential_files self = false ->
      (add_check cwd self name f = Some Added
       <-> (os_path.basename name <> "__pycache__"
            /\ str.endswith (os_path.basename name) ".pyc" = false)
           /\ (In (os_path.basename name) [".svn"; "out"] ->
               str.contains "node_modules" (os_path.dirname name) = true)
           /\ (os_path.basename name = ".git" ->
               exists p, In p ESSENTIAL_GIT_DIRS /\ str.startswith rel p = true)))
  /\ (rel = "third_party/blink/web_tests/foo.html" ->
      os_path.basename name = "foo.html" ->
      __remove_nonessential_files self = false ->
      add_check cwd self name f = Some Added).
Proof.
  intros Hrel Hfile Hdir Hunder Hre Hess.
  rewrite (add_check_guards cwd self name f rel Hrel).
  pose proof (not_broken_of_isfile f Hfile) as Hlive.
  assert (forall v, Some (guards self f name rel (os_path.dirname name)
                            (os_path.basename name)) = Some v
                    <-> guards self f name rel (os_path.dirname name)
                          (os_path.basename name) = v) as Hsome
    by (intros v; split; congruence).
  split; [|split].
  - intros Hon.
    destruct (guards_on_listed_file self f name rel (os_path.dirname name)
                (os_path.basename name) Hon Hfile) as [rule Hrule].
    + unfold keep_file. rewrite Hre. apply py_in_false. exact Hess.
    + apply in_nonessential_dir_spec. exists dir. split; assumption.
    + exists rule. rewrite Hrule. reflexivity.
  - intros Hoff. rewrite Hsome. apply guards_off; assumption.
  - intros _ Hbase Hoff. rewrite Hsome. apply guards_off; [assumption..|].
    rewrite Hbase. split; [split; [discriminate | reflexivity]|].
    split.
    + intros [H|[H|[]]]; discriminate.
    + discriminate.
Qed.

(** The example of C1 at [/src]. *)
Lemma nonessential_file_by_mode_witness :
  (exists rule,
     add_check "/" (archive_at "/src" true)
       "/src/third_party/blink/web_tests/foo.html" regular_file
     = Some (Skipped rule))
  /\ add_check "/" (archive_at "/src" false)
       "/src/third_party/blink/web_tests/foo.html" regular_file
     = Some Added.
Proof.
  split.
  - apply (nonessential_file_by_mode "/" (archive_at "/src" true)
             "/src/third_party/blink/web_tests/foo.html" regular_file
             "third_party/blink/web_tests/foo.html" "third_party/blink/web_tests").
    + vm_compute; reflexivity.
    + vm_compute; reflexivity.
    + left. simpl. tauto.
    + right. exists "foo.html". vm_compute; reflexivity.
    + vm_compute; reflexivity.
    + simpl. intros [H|[H|[H|[]]]]; discriminate.
    + vm_compute; reflexivity.
  - apply (nonessential_file_by_mode "/" (archive_at "/src" false)
             "/src/third_party/blink/web_tests/foo.html" regular_file
             "third_party/blink/web_tests/foo.html" "third_party/blink/web_tests").
    + vm_compute; reflexivity.
    + vm_compute; reflexivity.
    + left. simpl. tauto.
    + right. exists "foo.html". vm_compute; reflexivity.
    + vm_compute; reflexivity.
    + simpl. intros [H|[H|[H|[]]]]; discriminate.
    + reflexivity.
    + vm_compute; reflexivity.
    + vm_compute; reflexivity.
Defined.

(** C1 as it is written fails on a compiled-bytecode file below [v8/test]:
    every premise of the claim holds, and with size reduction off the file
    is dropped all the same, by the guard on [.pyc]. *)
Lemma nonessential_file_kept_when_off_counterexample :
  let self := archive_at "/src" false in
  let name := "/src/v8/test/foo.pyc" in
  rel_name_of "/" self name = Some "v8/test/foo.pyc"
  /\ isfile regular_file = true
  /\ In "v8/test" nonessential_dirs
  /\ "v8/test/foo.pyc" = "v8/test" +:+ "/" +:+ "foo.pyc"
  /\ re.search keep_pattern (os_path.basename name) = false
  /\ ~ In "v8/test/foo.pyc" ESSENTIAL_FILES
  /\ __remove_nonessential_files self = false
  /\ add_check "/" self name regular_file = Some (Skipped BytecodeCache).
Proof.
  cbv zeta. repeat split; try (vm_compute; reflexivity).
  - simpl. tauto.
  - simpl. intros [H|[H|[H|[]]]]; discriminate.
Qed.

Lemma build_file_matches (b stem ext suffix : string) :
  b = stem +:+ "." +:+ ext +:+ suffix ->
  In ext build_extensions ->
  suffix = EmptyString
  \/ (exists t, suffix = "." +:+ t /\ t <> EmptyString
                /\ all_in_class re.non_space t = true) ->
  re.search keep_pattern b = true.
Proof.
  intros -> Hext [->|(t & -> & Hne & Hall)].
  - rewrite app_empty_r. apply keep_pattern_plain. exact Hext.
  - apply keep_pattern_suffixed; assumption.
Qed.

(** C2, as the code has it.  With size reduction on, a file whose base name
    ends in a dot and one of gn, gni, grd, grdp, isolate, pydeps, with or
    without one more dotted suffix free of white space, is kept wherever it
    lies, provided that it is no broken symbolic link, that its base name
    does not end in [.pyc] and that its path does not contain
    [ChangeLog]. *)
Theorem build_file_kept
    (cwd : string) (self : MyTarFile) (name : string) (f : path_facts)
    (rel stem ext suffix : string) :
  rel_name_of cwd self name = Some rel ->
  os_path.basename name = stem +:+ "." +:+ ext +:+ suffix ->
  In ext build_extensions ->
  suffix = EmptyString
  \/ (exists t, suffix = "." +:+ t /\ t <> EmptyString
                /\ all_in_class re.non_space t = true) ->
  __remove_nonessential_files self = true ->
  (islink f = true -> exists_ f = true) ->
  str.endswith (os_path.basename name) ".pyc" = false ->
  str.contains "ChangeLog" name = false ->
  add_check cwd self name f = Some Added.
Proof.
  intros Hrel Hbase Hext Hsuf Hon Hlive Hpyc Hlog.
  rewrite (add_check_guards cwd self name f rel Hrel). f_equal.
  pose proof (build_file_matches _ _ _ _ Hbase Hext Hsuf) as Hm.
  assert (islink f && negb (exists_ f) = false) as Hl.
  { destruct (islink f); [rewrite Hlive; reflexivity | reflexivity]. }
  unfold guards, keep_file. rewrite Hl, Hpyc, Hon, Hlog, Hm. cbn [negb andb orb].
  destruct (String.eqb_spec (os_path.basename name) "__pycache__") as [E|_].
  { rewrite E in Hm. vm_compute in Hm. discriminate. }
  destruct (py_in (os_path.basename name) [".svn"; "out"]) eqn:Hvcs.
  { apply py_in_spec in Hvcs as [E|[E|[]]];
      rewrite <- E in Hm; vm_compute in Hm; discriminate. }
  destruct (String.eqb_spec (os_path.basename name) ".git") as [E|_].
  { rewrite E in Hm. vm_compute in Hm. discriminate. }
  reflexivity.
Qed.

Lemma build_file_kept_witness :
  add_check "/" (archive_at "/src" true) "/src/v8/test/BUILD.gn.orig" regular_file
  = Some Added.
Proof.
  apply (build_file_kept "/" (archive_at "/src" true) "/src/v8/test/BUILD.gn.orig"
           regular_file "v8/test/BUILD.gn.orig" "BUILD" "gn" ".orig").
  - vm_compute; reflexivity.
  - vm_compute; reflexivity.
  - simpl. tauto.
  - right. exists "orig".
    split; [reflexivity | split; [discriminate | vm_compute; reflexivity]].
  - reflexivity.
  - discriminate.
  - vm_compute; reflexivity.
  - vm_compute; reflexivity.
Defined.

(** C2 as it is written fails three times below the listed directory
    [v8/test], each time with size reduction on and a base name that ends
    in [.gn], once with one more dotted suffix: a change log, a file of
    compiled bytecode and a broken symbolic link are dropped all the same. *)
Lemma build_file_kept_counterexample :
  os_path.basename "/src/v8/test/ChangeLog.gn" = "ChangeLog" +:+ "." +:+ "gn"
  /\ add_check "/" (archive_at "/src" true) "/src/v8/test/ChangeLog.gn" regular_file
     = Some (Skipped ChangeLogPath)
  /\ os_path.basename "/src/v8/test/BUILD.gn.pyc" = "BUILD" +:+ "." +:+ "gn" +:+ ".pyc"
  /\ add_check "/" (archive_at "/src" true) "/src/v8/test/BUILD.gn.pyc" regular_file
     = Some (Skipped BytecodeCache)
  /\ os_path.basename "/src/v8/test/BUILD.gn" = "BUILD" +:+ "." +:+ "gn"
  /\ add_check "/" (archive_at "/src" true) "/src/v8/test/BUILD.gn" broken_link
     = Some (Skipped BrokenSymlink).
Proof. repeat split; vm_compute; reflexivity. Qed.

Lemma guards_vcs_dropped (self : MyTarFile) (f : path_facts) (name rel d b : string) :
  In b [".svn"; "out"] ->
  str.contains "node_modules" d = false ->
  exists rule, guards self f name rel d b = Skipped rule.
Proof.
  intros Hb Hd. unfold guards.
  apply py_in_spec in Hb. rewrite Hb, Hd. cbn [negb andb].
  repeat match goal with
         | |- context [if ?c then _ else _] => destruct c; [eexists; reflexivity|]
         end.
  eexists; reflexivity.
Qed.

Lemma guards_vcs_spared (self : MyTarFile) (f : path_facts) (name rel d b : string) :
  In b [".svn"; "out"] ->
  str.contains "node_modules" d = true ->
  (islink f = true -> exists_ f = true) ->
  __remove_nonessential_files self = false
  \/ (str.contains "ChangeLog" name = false
      /\ (in_nonessential_dir rel = false \/ (isfile f = false /\ islink f = false))) ->
  guards self f name rel d b = Added.
Proof.
  intros Hb Hd Hlive Hrest.
  assert (islink f && negb (exists_ f) = false) as Hl.
  { destruct (islink f); [rewrite Hlive; reflexivity | reflexivity]. }
  assert (String.eqb b "__pycache__" || str.endswith b ".pyc" = false) as Hc.
  { destruct Hb as [<-|[<-|[]]]; vm_compute; reflexivity. }
  assert (String.eqb b ".git" = false) as Hg.
  { destruct Hb as [<-|[<-|[]]]; vm_compute; reflexivity. }
  unfold guards. rewrite Hl, Hc, Hd, Hg. cbn [negb andb].
  rewrite andb_false_r.
  destruct (__remove_nonessential_files self); [|reflexivity].
  destruct Hrest as [?|[-> [Hdir|[Hfile Hlink]]]]; [discriminate|..].
  - rewrite Hdir. cbn [andb]. rewrite andb_false_r. reflexivity.
  - rewrite Hfile, Hlink. cbn [orb]. rewrite !andb_false_r. reflexivity.
Qed.

(** C3, as the code has it.  An entry whose base name is [.svn] or [out] is
    dropped, in every mode, when its parent path does not contain the text
    [node_modules].  When the parent path contains that text anywhere, as
    a whole component or inside a longer name, this guard lets the entry
    pass, and the entry is kept unless it is a broken symbolic link or size
    reduction drops it: it is kept with size reduction off, and with size
    reduction on when the path is free of [ChangeLog] and the entry is
    either outside the listed directories or neither a file nor a link. *)
Theorem out_dir_by_parent_path
    (cwd : string) (self : MyTarFile) (name : string) (f : path_facts)
    (rel : string) :
  rel_name_of cwd self name = Some rel ->
  In (os_path.basename name) [".svn"; "out"] ->
  ((~ exists a b, os_path.dirname name = a +:+ "node_modules" +:+ b) ->
     exists rule, add_check cwd self name f = Some (Skipped rule))
  /\ ((exists a b, os_path.dirname name = a +:+ "node_modules" +:+ b) ->
      (islink f = true -> exists_ f = true) ->
      __remove_nonessential_files self = false
      \/ (str.contains "ChangeLog" name = false
          /\ (in_nonessential_dir rel = false
              \/ (isfile f = false /\ islink f = false))) ->
      add_check cwd self name f = Some Added).
Proof.
  intros Hrel Hbase.
  rewrite (add_check_guards cwd self name f rel Hrel). split.
  - intros Hno.
    destruct (guards_vcs_dropped self f name rel (os_path.dirname name)
                (os_path.basename name) Hbase) as [rule Hrule].
    + destruct (str.contains "node_modules" (os_path.dirname name)) eqn:E;
        [|reflexivity].
      apply contains_spec in E. contradiction.
    + exists rule. rewrite Hrule. reflexivity.
  - intros Hin Hlive Hrest. f_equal.
    apply guards_vcs_spared; [assumption | | assumption..].
    apply contains_spec. exact Hin.
Qed.

Lemma out_dir_by_parent_path_witness :
  (exists rule,
     add_check "/" (archive_at "/src" false) "/src/v8/out" directory
     = Some (Skipped rule))
  /\ add_check "/" (archive_at "/src" false)
       "/src/third_party/node/node_modules/typescript/out" directory
     = Some Added.
Proof.
  split.
  - apply (out_dir_by_parent_path "/" (archive_at "/src" false) "/src/v8/out"
             directory "v8/out").
    + vm_compute; reflexivity.
    + right; left. vm_compute; reflexivity.
    + intros H. apply contains_spec in H. vm_compute in H. discriminate.
  - apply (out_dir_by_parent_path "/" (archive_at "/src" false)
             "/src/third_party/node/node_modules/typescript/out"
             directory "third_party/node/node_modules/typescript/out").
    + vm_compute; reflexivity.
    + right; left. vm_compute; reflexivity.
    + exists "/src/third_party/node/", "/typescript". vm_compute; reflexivity.
    + discriminate.
    + left. reflexivity.
Defined.

(** C3 as it is written fails on [/src/my_node_modules_old/out]: no
    component of the path is [node_modules], the base name is [out], and
    the entry is kept, because the code looks for the text in the parent
    path and not for a component. *)
Lemma out_dir_component_counterexample :
  os_path.basename "/src/my_node_modules_old/out" = "out"
  /\ ~ In "node_modules" (str.split "/src/my_node_modules_old/out" "/"%char)
  /\ add_check "/" (archive_at "/src" false) "/src/my_node_modules_old/out" directory
     = Some Added
  /\ add_check "/" (archive_at "/src" true) "/src/my_node_modules_old/out" directory
     = Some Added.
Proof.
  repeat split; try (vm_compute; reflexivity).
  vm_compute. intros [H|[H|[H|[H|[]]]]]; discriminate.
Qed.

(** C4.  An entry whose base name is [.git] and whose relative path starts
    with no Essential Git-Metadata Prefix is dropped, whatever the
    attributes of the archive object are: size reduction on or off, and
    either way of calling [main], whose test-data option reaches [add]
    only through the paths it is called on. *)
Theorem git_metadata_dropped
    (cwd : string) (self : MyTarFile) (name : string) (f : path_facts)
    (rel : string) :
  rel_name_of cwd self name = Some rel ->
  os_path.basename name = ".git" ->
  (forall p rest, In p ESSENTIAL_GIT_DIRS -> rel <> p +:+ rest) ->
  exists rule, add_check cwd self name f = Some (Skipped rule).
Proof.
  intros Hrel Hbase Hprefix.
  rewrite (add_check_guards cwd self name f rel Hrel).
  assert (existsb (str.startswith rel) ESSENTIAL_GIT_DIRS = false) as Hno.
  { destruct (existsb _ _) eqn:E; [|reflexivity].
    apply startswith_any_spec in E as (p & Hp & Hs).
    apply startswith_spec in Hs as [rest Hs].
    destruct (Hprefix p rest Hp Hs). }
  unfold guards. rewrite Hbase, Hno.
  destruct (islink f && negb (exists_ f)); [eexists; reflexivity|].
  eexists. reflexivity.
Qed.

Lemma git_metadata_dropped_witness :
  exists rule,
    add_check "/" (archive_at "/src" false) "/src/third_party/llvm/.git" directory
    = Some (Skipped rule).
Proof.
  apply (git_metadata_dropped "/" (archive_at "/src" false)
           "/src/third_party/llvm/.git" directory "third_party/llvm/.git").
  - vm_compute; reflexivity.
  - vm_compute; reflexivity.
  - intros p rest [<-|[]] H. discriminate.
Defined.

(** C5.  A symbolic link whose target does not exist is dropped by the
    first guard of [add], whatever the attributes of the archive object and
    whatever the later guards would say of its name. *)
Theorem broken_symlink_dropped_first
    (cwd : string) (self : MyTarFile) (name : string) (f : path_facts) :
  name <> EmptyString ->
  islink f = true ->
  exists_ f = false ->
  add_check cwd self name f = Some (Skipped BrokenSymlink).
Proof.
  intros Hname Hlink Hgone.
  destruct (rel_name_of_nonempty cwd self name Hname) as [rel Hrel].
  rewrite (add_check_guards cwd self name f rel Hrel).
  unfold guards. rewrite Hlink, Hgone. reflexivity.
Qed.

Lemma broken_symlink_dropped_first_witness :
  add_check "/" (archive_at "/src" false)
    "/src/third_party/node/node_modules/typescript/BUILD.gn" broken_link
  = Some (Skipped BrokenSymlink).
Proof.
  apply (broken_symlink_dropped_first "/" (archive_at "/src" false)
           "/src/third_party/node/node_modules/typescript/BUILD.gn" broken_link).
  - discriminate.
  - reflexivity.
  - reflexivity.
Defined.

(** C6, as the code has it.  With size reduction on, the file with relative
    path [chrome/test/data/webui/i18n_process_css_test.html], an Essential
    File Override below the Test Data Directory [chrome/test/data], is
    kept, provided that it is no broken symbolic link and that its path,
    the source root included, does not contain [ChangeLog]. *)
Theorem essential_override_kept
    (cwd : string) (self : MyTarFile) (name : string) (f : path_facts)
    (rel : string) :
  rel = "chrome/test/data/webui/i18n_process_css_test.html" ->
  rel_name_of cwd self name = Some rel ->
  os_path.basename name = "i18n_process_css_test.html" ->
  __remove_nonessential_files self = true ->
  (islink f = true -> exists_ f = true) ->
  str.contains "ChangeLog" name = false ->
  add_check cwd self name f = Some Added
  /\ In rel ESSENTIAL_FILES
  /\ In "chrome/test/data" TEST_DIRS
  /\ rel = "chrome/test/data" +:+ "/" +:+ "webui/i18n_process_css_test.html".
Proof.
  intros -> Hrel Hbase Hon Hlive Hlog.
  split; [|split; [simpl; tauto | split; [simpl; tauto | reflexivity]]].
  rewrite (add_check_guards cwd self name f _ Hrel). f_equal.
  assert (islink f && negb (exists_ f) = false) as Hl.
  { destruct (islink f); [rewrite Hlive; reflexivity | reflexivity]. }
  unfold guards. rewrite Hl, Hbase, Hon, Hlog.
  vm_compute. reflexivity.
Qed.

Lemma essential_override_kept_witness :
  add_check "/" (archive_at "/src" true)
    "/src/chrome/test/data/webui/i18n_process_css_test.html" regular_file
  = Some Added.
Proof.
  apply (essential_override_kept "/" (archive_at "/src" true)
           "/src/chrome/test/data/webui/i18n_process_css_test.html" regular_file
           "chrome/test/data/webui/i18n_process_css_test.html").
  - reflexivity.
  - vm_compute; reflexivity.
  - vm_compute; reflexivity.
  - reflexivity.
  - discriminate.
  - vm_compute; reflexivity.
Defined.

(** C6 as it is written fails for a checkout below a directory whose name
    contains [ChangeLog]: the relative path is the one of the claim, size
    reduction is on, and the file is dropped by the guard on the whole
    path. *)
Lemma essential_override_counterexample :
  rel_name_of "/" (archive_at "/ChangeLog/src" true)
    "/ChangeLog/src/chrome/test/data/webui/i18n_process_css_test.html"
  = Some "chrome/test/data/webui/i18n_process_css_test.html"
  /\ isfile regular_file = true
  /\ __remove_nonessential_files (archive_at "/ChangeLog/src" true) = true
  /\ add_check "/" (archive_at "/ChangeLog/src" true)
       "/ChangeLog/src/chrome/test/data/webui/i18n_process_css_test.html"
       regular_file
     = Some (Skipped ChangeLogPath).
Proof. repeat split; vm_compute; reflexivity. Qed.

(** ** The metadata normalizer *)

Lemma S_IWUSR_bit (i : Z) : Z.testbit S_IWUSR i = (i =? 7).
Proof.
  change S_IWUSR with (2 ^ 7). rewrite Z.pow2_bits_eqb by lia.
  apply Z.eqb_sym.
Qed.

(** C10.  [__filter] leaves name, size, checksum, type, link target, device
    numbers, offsets and pax headers of the record as they are, and so
    changes no field but mtime, mode, uid, gid, uname and gname; the new
    mode is the old one
    with the owner-write bit (bit 7, [0o200]) set, so each bit of the new
    mode is the bit of the old mode or the owner-write bit, and no bit that
    was set is lost. *)
Theorem filter_frame (self : MyTarFile) (tar_info : TarInfo.t) :
  TarInfo.name (__filter self tar_info) = TarInfo.name tar_info
  /\ TarInfo.size (__filter self tar_info) = TarInfo.size tar_info
  /\ TarInfo.chksum (__filter self tar_info) = TarInfo.chksum tar_info
  /\ TarInfo.type (__filter self tar_info) = TarInfo.type tar_info
  /\ TarInfo.linkname (__filter self tar_info) = TarInfo.linkname tar_info
  /\ TarInfo.devmajor (__filter self tar_info) = TarInfo.devmajor tar_info
  /\ TarInfo.devminor (__filter self tar_info) = TarInfo.devminor tar_info
  /\ TarInfo.offset (__filter self tar_info) = TarInfo.offset tar_info
  /\ TarInfo.offset_data (__filter self tar_info) = TarInfo.offset_data tar_info
  /\ TarInfo.pax_headers (__filter self tar_info) = TarInfo.pax_headers tar_info
  /\ TarInfo.mode (__filter self tar_info) = Z.lor (TarInfo.mode tar_info) S_IWUSR
  /\ (forall i : Z,
        Z.testbit (TarInfo.mode (__filter self tar_info)) i
        = Z.testbit (TarInfo.mode tar_info) i || (i =? 7))
  /\ Z.land (TarInfo.mode tar_info) (TarInfo.mode (__filter self tar_info))
     = TarInfo.mode tar_info.
Proof.
  repeat split.
  - intros i. simpl. rewrite Z.lor_spec, S_IWUSR_bit. reflexivity.
  - simpl. apply Z.bits_inj'. intros i _.
    rewrite Z.land_spec, Z.lor_spec.
    destruct (Z.testbit (TarInfo.mode tar_info) i); reflexivity.
Qed.

Lemma filter_normalized (self : MyTarFile) (tar_info : TarInfo.t) :
  normalized (__mtime self) (__filter self tar_info).
Proof.
  split; [reflexivity|]. unfold __filter. cbn [TarInfo.mode].
  rewrite Z.lor_spec, S_IWUSR_bit. apply orb_true_r.
Qed.

(** ** Statements that only append *)

Section Appends.

Context (P : TarInfo.t -> Prop).

Lemma appends_ret {A} (a : A) : appends P (ret a).
Proof.
  intros s. exists [], []. simpl. rewrite !app_nil_r. auto.
Qed.

Lemma appends_raise {A} (e : exn) : appends P (@raise A e).
Proof.
  intros s. exists [], []. simpl. rewrite !app_nil_r. auto.
Qed.

Lemma appends_print (line : string) : appends P (print line).
Proof.
  intros s. exists [], [line]. simpl. rewrite app_nil_r. auto.
Qed.

Lemma appends_addfile (ti : TarInfo.t) : P ti -> appends P (addfile ti).
Proof.
  intros H s. exists [ti], []. simpl. rewrite app_nil_r. auto.
Qed.

Lemma appends_bind {A B} (m : io A) (k : A -> io B) :
  appends P m -> (forall a, appends P (k a)) -> appends P (bind m k).
Proof.
  intros Hm Hk s. unfold bind.
  destruct (Hm s) as (ms & out & Hms & Hout & HP).
  destruct (m s) as [[a|e] s'] eqn:E; simpl in *.
  - destruct (Hk a s') as (ms' & out' & Hms' & Hout' & HP').
    exists (ms ++ ms'), (out ++ out').
    rewrite Hms', Hout', Hms, Hout, !app_assoc.
    split; [reflexivity|]. split; [reflexivity|].
    apply Forall_app; auto.
  - exists ms, out. auto.
Qed.

Lemma appends_for_each {A} (xs : list A) (body : A -> io unit) :
  Forall (fun x => appends P (body x)) xs -> appends P (for_each xs body).
Proof.
  induction 1 as [|x xs Hx _ IH]; simpl.
  - apply appends_ret.
  - apply appends_bind; [exact Hx | intros _; exact IH].
Qed.

Lemma appends_report_skipped (self : MyTarFile) (name : string) :
  appends P (__report_skipped self name).
Proof.
  unfold __report_skipped. destruct (__verbose self);
    [apply appends_print | apply appends_ret].
Qed.

Lemma appends_report_added (self : MyTarFile) (name : string) :
  appends P (__report_added self name).
Proof.
  unfold __report_added. destruct (__verbose self);
    [apply appends_print | apply appends_ret].
Qed.

End Appends.

(** ** Sorting the entries of a directory *)

Lemma insert_by_Forall {A} (key : A -> string) (Q : A -> Prop) (x : A) (l : list A) :
  Q x -> Forall Q l -> Forall Q (insert_by key x l).
Proof.
  intros Hx Hl. induction Hl as [|y l Hy Hl IH]; simpl.
  - constructor; [exact Hx | constructor].
  - destruct (String.leb (key x) (key y)).
    + constructor; [exact Hx|]. constructor; assumption.
    + constructor; assumption.
Qed.

Lemma sorted_by_Forall {A} (key : A -> string) (Q : A -> Prop) (l : list A) :
  Forall Q l -> Forall Q (sorted_by key l).
Proof.
  induction 1 as [|x l Hx _ IH]; simpl.
  - constructor.
  - apply insert_by_Forall; assumption.
Qed.

(** ** The traversal *)

(** Induction on a tree with the property at hand for each entry of a
    directory. *)
Lemma fsnode_nested_ind (Q : fsnode -> Prop) :
  (forall st, Q (File st)) ->
  (forall st entries, Forall (fun entry => Q entry.2) entries ->
                      Q (Directory st entries)) ->
  (forall st readlink target, Q (Symlink st readlink target)) ->
  (forall st kind, Q (Special st kind)) ->
  forall node, Q node.
Proof.
  intros HF HD HL HS. fix IH 1. intros [st|st entries|st readlink target|st kind].
  - apply HF.
  - apply HD. induction entries as [|[f child] entries IHe].
    + constructor.
    + constructor; [apply IH | exact IHe].
  - apply HL.
  - apply HS.
Qed.

Lemma TarFile_add_appends (P : TarInfo.t -> Prop) (host : Host) (node : fsnode)
    (children : list child_add) (name arcname : string)
    (filter : TarInfo.t -> option TarInfo.t) :
  (forall ti ti', filter ti = Some ti' -> P ti') ->
  Forall (fun child : child_add => forall n a, appends P (child.2 n a)) children ->
  appends P (TarFile_add host node children name arcname filter).
Proof.
  intros Hfilter Hchildren. unfold TarFile_add.
  destruct (gettarinfo host node arcname) as [ti|]; [|apply appends_ret].
  destruct (filter ti) as [ti'|] eqn:E; [|apply appends_ret].
  pose proof (Hfilter ti ti' E) as Hti.
  destruct (TarInfo.isreg ti'); [apply appends_addfile; exact Hti|].
  destruct (TarInfo.isdir ti'); [|apply appends_addfile; exact Hti].
  apply appends_bind; [apply appends_addfile; exact Hti|]. intros _.
  apply appends_for_each.
  apply sorted_by_Forall.
  eapply Forall_impl; [exact Hchildren|]. intros child H. apply H.
Qed.

(** [MyTarFile.add] appends members that went through [__filter]. *)
Lemma add_appends (host : Host) (self : MyTarFile) (node : fsnode) :
  forall name arcname,
    appends (normalized (__mtime self)) (add host self node name arcname).
Proof.
  induction node as [st|st entries IH|st readlink target|st kind]
    using fsnode_nested_ind; intros name arcname; simpl;
    (destruct (add_check (getcwd host) self name _) as [[rule|]|];
     [apply appends_report_skipped | | apply appends_raise]);
    (apply appends_bind; [apply appends_report_added|]; intros _);
    (apply TarFile_add_appends;
     [intros ti ti' [= <-]; apply filter_normalized|]).
  - constructor.
  - induction IH as [|[f child] entries Hchild _ IHe]; simpl.
    + constructor.
    + constructor; [exact Hchild | exact IHe].
  - constructor.
  - constructor.
Qed.

(** X7.  An entry that the guards skip is reported and nothing more: on
    it [MyTarFile.add] is [__report_skipped], so the archive, and the
    output but for the report, stay as they are, and nothing below the
    entry is visited. *)
Lemma add_skipped (host : Host) (self : MyTarFile) (node : fsnode)
    (name arcname : string) (rule : skip_rule) :
  add_check (getcwd host) self name (facts_of node) = Some (Skipped rule) ->
  add host self node name arcname = __report_skipped self name
  /\ forall s, members (add host self node name arcname s).2 = members s.
Proof.
  intros H.
  assert (add host self node name arcname = __report_skipped self name) as E
    by (destruct node; cbn [add]; rewrite H; reflexivity).
  split; [exact E|]. intros s. rewrite E. unfold __report_skipped.
  destruct (__verbose self); reflexivity.
Qed.

Lemma appends_impl {A} (P Q : TarInfo.t -> Prop) (m : io A) :
  (forall ti, P ti -> Q ti) -> appends P m -> appends Q m.
Proof.
  intros HPQ Hm s. destruct (Hm s) as (ms & out & Hms & Hout & HP).
  exists ms, out. split; [exact Hms|]. split; [exact Hout|].
  eapply Forall_impl; eauto.
Qed.

Lemma add_path_appends (w : World) (self : MyTarFile) (name arcname : string) :
  appends (normalized (__mtime self)) (add_path w self name arcname).
Proof.
  unfold add_path. destruct (lookup w name) as [node|].
  - apply add_appends.
  - destruct (add_check _ self name no_entry) as [[rule|]|].
    + apply appends_report_skipped.
    + apply appends_bind; [apply appends_report_added|].
      intros _. apply appends_raise.
    + apply appends_raise.
Qed.

Lemma add_sources_appends (w : World) (self : MyTarFile) (options : Options.t)
    (src_dir output_basename : string) :
  appends (normalized (__mtime self))
    (add_sources w self options src_dir output_basename).
Proof.
  unfold add_sources. destruct (Options.test_data options).
  - apply appends_for_each, Forall_forall. intros directory _.
    destruct (negb _); [apply appends_print | apply add_path_appends].
  - apply add_path_appends.
Qed.

(** What [main] says of a member: it bears the timestamp of the provenance
    file of the source directory. *)
Lemma main_appends (w : World) (options : Options.t) (args : list string) :
  appends
    (fun ti => exists src_dir timestamp,
       Options.src_dir options = Some src_dir
       /\ read_int w (os_path.join2 src_dir LASTCHANGE) = Return timestamp
       /\ normalized timestamp ti)
    (main w options args).
Proof.
  unfold main.
  destruct (negb (length args =? 1)%nat).
  { repeat (apply appends_bind; [apply appends_print|]; intros _).
    apply appends_ret. }
  destruct (negb (truthy (Options.version options))).
  { apply appends_bind; [apply appends_print|]; intros _. apply appends_ret. }
  destruct (Options.src_dir options) as [src_dir|] eqn:Hsrc; [|apply appends_raise].
  destruct (negb (exists_ (facts_at w src_dir))).
  { apply appends_bind; [apply appends_print|]; intros _. apply appends_ret. }
  cbv zeta.
  destruct (negb (can_open_output w _)); [apply appends_raise|].
  destruct (negb (can_start_xz w)); [apply appends_raise|].
  destruct (read_int w (os_path.join2 src_dir LASTCHANGE)) as [timestamp|e] eqn:Hread;
    [|apply appends_raise].
  apply appends_bind.
  - eapply appends_impl; [|apply add_sources_appends].
    intros ti Hti. exists src_dir, timestamp. auto.
  - intros _. destruct (negb (xz_exit_status w =? 0)).
    + apply appends_bind; [apply appends_print|]; intros _. apply appends_ret.
    + apply appends_ret.
Qed.

Lemma land_S_IWUSR (mode : Z) :
  Z.testbit mode 7 = true -> Z.land mode S_IWUSR = S_IWUSR.
Proof.
  intros H. apply Z.bits_inj'. intros i _.
  rewrite Z.land_spec, S_IWUSR_bit.
  destruct (Z.eqb_spec i 7) as [->|_]; [rewrite H; reflexivity | apply andb_false_r].
Qed.

(** C7.  Every member of the archive that a run of [main] writes bears the
    one timestamp read from the provenance file
    [build/util/LASTCHANGE.committime] of the source directory, owner and
    group id 0, owner and group name ["0"], and a mode with the owner-write
    bit [S_IWUSR] set. *)
Theorem archive_members_normalized
    (w : World) (options : Options.t) (args : list string) (ti : TarInfo.t) :
  In ti (members (run_main w options args).2) ->
  exists src_dir timestamp,
    Options.src_dir options = Some src_dir
    /\ read_int w (os_path.join2 src_dir LASTCHANGE) = Return timestamp
    /\ TarInfo.mtime ti = timestamp
    /\ TarInfo.uid ti = 0
    /\ TarInfo.gid ti = 0
    /\ TarInfo.uname ti = "0"
    /\ TarInfo.gname ti = "0"
    /\ Z.land (TarInfo.mode ti) S_IWUSR = S_IWUSR.
Proof.
  intros Hin. unfold run_main in Hin.
  destruct (main_appends w options args {| members := []; stdout := [] |})
    as (ms & out & Hms & _ & Hall).
  rewrite Hms in Hin. simpl in Hin.
  rewrite Forall_forall in Hall. apply list_elem_of_In in Hin.
  destruct (Hall ti Hin) as (src_dir & timestamp & Hsrc & Hread & Hmeta & Hbit).
  exists src_dir, timestamp. unfold metadata in Hmeta.
  injection Hmeta as Hmtime Huid Hgid Huname Hgname.
  repeat split; try assumption.
  apply land_S_IWUSR. exact Hbit.
Qed.

(** The sample run in full-tree mode: the members in the order of the
    traversal, without the entries that the filter drops. *)
Example sample_run_members :
  map TarInfo.name
    (members (run_main (sample_world (sample_host "alice" "staff")
                          (sample_tree 1000 50 1600000000) 0)
                (sample_options false false) ["/tmp/chromium-1.2.3"]).2)
  = [ "chromium-1.2.3"; "chromium-1.2.3/DEPS"; "chromium-1.2.3/v8";
      "chromium-1.2.3/v8/b.cc"; "chromium-1.2.3/v8/test";
      "chromium-1.2.3/v8/test/BUILD.gn"; "chromium-1.2.3/v8/test/a.js" ].
Proof. vm_compute. reflexivity. Qed.

(** The same run with size reduction on: [v8/test/a.js] goes, the build
    file next to it and the emptied directory stay. *)
Example sample_run_members_reduced :
  map TarInfo.name
    (members (run_main (sample_world (sample_host "alice" "staff")
                          (sample_tree 1000 50 1600000000) 0)
                (sample_options true false) ["/tmp/chromium-1.2.3"]).2)
  = [ "chromium-1.2.3"; "chromium-1.2.3/DEPS"; "chromium-1.2.3/v8";
      "chromium-1.2.3/v8/b.cc"; "chromium-1.2.3/v8/test";
      "chromium-1.2.3/v8/test/BUILD.gn" ].
Proof. vm_compute. reflexivity. Qed.

Lemma archive_members_normalized_witness :
  exists src_dir timestamp,
    Options.src_dir (sample_options false false) = Some src_dir
    /\ read_int (sample_world (sample_host "alice" "staff")
                   (sample_tree 1000 50 1600000000) 0)
         (os_path.join2 src_dir LASTCHANGE) = Return timestamp
    /\ TarInfo.mtime sample_member = timestamp
    /\ TarInfo.uid sample_member = 0
    /\ TarInfo.gid sample_member = 0
    /\ TarInfo.uname sample_member = "0"
    /\ TarInfo.gname sample_member = "0"
    /\ Z.land (TarInfo.mode sample_member) S_IWUSR = S_IWUSR.
Proof.
  apply (archive_members_normalized
           (sample_world (sample_host "alice" "staff")
              (sample_tree 1000 50 1600000000) 0)
           (sample_options false false) ["/tmp/chromium-1.2.3"] sample_member).
  vm_compute. do 3 right. left. reflexivity.
Defined.

(** ** Two runs on the same source *)

Section Sim.









End Sim.

Lemma insert_by_map {A B} (h : A -> B) (key1 : A -> string) (key2 : B -> string)
    (x : A) (l : list A) :
  (forall a, key2 (h a) = key1 a) ->
  insert_by key2 (h x) (map h l) = map h (insert_by key1 x l).
Proof.
  intros Hkey. induction l as [|y l IH]; simpl; [reflexivity|].
  rewrite !Hkey. destruct (String.leb (key1 x) (key1 y)); simpl.
  - reflexivity.
  - rewrite IH. reflexivity.
Qed.

(** Sorting by name goes through a map that keeps the names. *)
Lemma sorted_by_map {A B} (h : A -> B) (key1 : A -> string) (key2 : B -> string)
    (l : list A) :
  (forall a, key2 (h a) = key1 a) ->
  sorted_by key2 (map h l) = map h (sorted_by key1 l).
Proof.
  intros Hkey. induction l as [|x l IH]; simpl; [reflexivity|].
  rewrite IH. apply insert_by_map. exact Hkey.
Qed.

(** *** The order of a directory listing does not matter *)

Lemma insert_by_Permutation {A} (key : A -> string) (x : A) (l : list A) :
  insert_by key x l ≡ₚ x :: l.
Proof.
  induction l as [|y l IH]; simpl; [reflexivity|].
  destruct (String.leb (key x) (key y)); [reflexivity|].
  rewrite IH. apply Permutation_swap.
Qed.

Lemma sorted_by_Permutation {A} (key : A -> string) (l : list A) :
  sorted_by key l ≡ₚ l.
Proof.
  induction l as [|x l IH]; simpl; [reflexivity|].
  rewrite insert_by_Permutation, IH. reflexivity.
Qed.

Lemma insert_by_StronglySorted {A} (key : A -> string) (x : A) (l : list A) :
  StronglySorted (fun a b => String.le (key a) (key b)) l ->
  StronglySorted (fun a b => String.le (key a) (key b)) (insert_by key x l).
Proof.
  induction 1 as [|y l Hl IH Hy]; simpl.
  - repeat constructor.
  - destruct (String.leb (key x) (key y)) eqn:Hxy.
    + constructor; [constructor; assumption|].
      assert (String.le (key x) (key y)) as Hle by (unfold String.le; rewrite Hxy; exact I).
      constructor; [exact Hle|].
      eapply Forall_impl; [exact Hy|]. intros z Hz. simpl in *. etrans; eassumption.
    + constructor; [exact IH|].
      apply insert_by_Forall; [|exact Hy].
      destruct (total String.le (key x) (key y)) as [H|H]; [|exact H].
      unfold String.le in H. rewrite Hxy in H. destruct H.
Qed.

Lemma sorted_by_StronglySorted {A} (key : A -> string) (l : list A) :
  StronglySorted (fun a b => String.le (key a) (key b)) (sorted_by key l).
Proof.
  induction l as [|x l IH]; simpl; [constructor|].
  apply insert_by_StronglySorted, IH.
Qed.

Lemma NoDup_key_inj {A} (key : A -> string) (l : list A) (x y : A) :
  NoDup (map key l) -> x ∈ l -> y ∈ l -> key x = key y -> x = y.
Proof.
  induction l as [|z l IH]; simpl; intros Hnd Hx Hy Hkey.
  - inversion Hx.
  - apply NoDup_cons in Hnd as [Hz Hnd].
    apply elem_of_cons in Hx as [->|Hx], Hy as [->|Hy]; auto.
    + destruct Hz. rewrite Hkey. apply (list_elem_of_fmap_2 key). exact Hy.
    + destruct Hz. rewrite <- Hkey. apply (list_elem_of_fmap_2 key). exact Hx.
Qed.

(** Two listings of the same entries, no two of them with the same name,
    are sorted into the same list. *)
Lemma sorted_by_listing {A} (key : A -> string) (l l' : list A) :
  l ≡ₚ l' -> NoDup (map key l) -> sorted_by key l = sorted_by key l'.
Proof.
  intros Hperm Hnd.
  apply (StronglySorted_unique_strong (fun a b => String.le (key a) (key b))).
  - intros x y Hx Hy Hxy Hyx.
    rewrite sorted_by_Permutation in Hx.
    rewrite sorted_by_Permutation, <- Hperm in Hy.
    apply (NoDup_key_inj key l); [assumption..|].
    apply (anti_symm String.le); assumption.
  - apply sorted_by_StronglySorted.
  - apply sorted_by_StronglySorted.
  - rewrite !sorted_by_Permutation. exact Hperm.
Qed.

(** A directory is the same source however the filesystem lists it. *)
Lemma listing_order_irrelevant (st st' : stat_result)
    (entries entries' : list (string * fsnode)) :
  entries ≡ₚ entries' -> NoDup (map fst entries) ->
  source_of (Directory st entries) = source_of (Directory st' entries').
Proof.
  intros Hperm Hnd. simpl. f_equal. apply sorted_by_listing.
  - apply Permutation_map. exact Hperm.
  - rewrite map_map.
    erewrite map_ext; [exact Hnd|]. intros [f child]. reflexivity.
Qed.















(** ** The exit status of [main] *)

(** A loop that ran to its end printed what each of its rounds prints. *)
Lemma for_each_printed {A} (xs : list A) (body : A -> io unit) (x : A)
    (line : string) (s s' : archive) :
  for_each xs body s = (Return tt, s') ->
  In x xs ->
  (forall s0, In line (stdout (body x s0).2)) ->
  (forall y, appends (fun _ => True) (body y)) ->
  In line (stdout s').
Proof.
  intros Hrun Hx Hline Hbody. revert s Hrun.
  induction xs as [|y xs IH]; intros s Hrun; [destruct Hx|].
  simpl in Hrun. unfold bind in Hrun.
  destruct (body y s) as [[u|e] s1] eqn:Hy; [|discriminate].
  destruct Hx as [->|Hx].
  - assert (appends (fun _ => True) (for_each xs body)) as Hrest
      by (apply appends_for_each, Forall_forall; intros; apply Hbody).
    destruct (Hrest s1) as (_ & out & _ & Hout & _).
    rewrite Hrun in Hout. simpl in Hout. rewrite Hout.
    apply in_or_app. left.
    specialize (Hline s). rewrite Hy in Hline. exact Hline.
  - apply (IH Hx s1 Hrun).
Qed.

Lemma add_sources_notice (w : World) (self : MyTarFile) (options : Options.t)
    (src_dir output_basename directory : string) (s s' : archive) :
  add_sources w self options src_dir output_basename s = (Return tt, s') ->
  Options.test_data options = true ->
  In directory TEST_DIRS ->
  isdir (facts_at w (os_path.join2 src_dir directory)) = false ->
  In (skip_notice (os_path.join2 src_dir directory)) (stdout s').
Proof.
  intros Hrun Htest Hdir Hmissing. unfold add_sources in Hrun.
  rewrite Htest in Hrun.
  eapply for_each_printed; [exact Hrun | exact Hdir | |].
  - intros s0. cbv beta zeta. rewrite Hmissing. simpl.
    apply in_or_app. right. left. reflexivity.
  - intros y. cbv beta zeta.
    destruct (negb _); [apply appends_print|].
    eapply appends_impl; [|apply add_path_appends]. auto.
Qed.

(** C9, as the code has it.  A run of [main] that raises no exception
    returns 0 or 1, and it returns 1 exactly when one of the four
    conditions holds: the number of positional arguments is not one, no
    version is given, the source directory does not exist, or the
    compressor ends with a status other than 0.  In such a run with the
    test-data option, every Test Data Directory that is missing has its
    skip notice in the output, and has no part in the value returned.
    [main] raises an exception, and so returns nothing, when one
    positional argument and a version are given and either the source
    directory option is absent ([TypeError] out of [os.path.exists]), or
    the source directory is there and the output file or the compressor
    cannot be opened, or the provenance file cannot be read as an
    integer; the exception is [OSError] or the one of the reading. *)
Theorem main_exit_status
    (w : World) (options : Options.t) (args : list string) :
  ((forall e, (run_main w options args).1 <> Raise e) ->
   exists n,
     (run_main w options args).1 = Return n
     /\ (n = 0 \/ n = 1)
     /\ (n <> 0 <-> exit_conditions w options args)
     /\ (forall src_dir directory,
           ~ exit_conditions w options args ->
           Options.src_dir options = Some src_dir ->
           Options.test_data options = true ->
           In directory TEST_DIRS ->
           isdir (facts_at w (os_path.join2 src_dir directory)) = false ->
           In (skip_notice (os_path.join2 src_dir directory))
              (stdout (run_main w options args).2)))
  /\ (length args = 1%nat ->
      truthy (Options.version options) = true ->
      (Options.src_dir options = None ->
       (run_main w options args).1 = Raise TypeError)
      /\ (forall src_dir,
            Options.src_dir options = Some src_dir ->
            exists_ (facts_at w src_dir) = true ->
            can_open_output w (hd EmptyString args +:+ ".tar.xz") = false
            \/ can_start_xz w = false
            \/ (exists e, read_int w (os_path.join2 src_dir LASTCHANGE) = Raise e) ->
            exists e,
              (run_main w options args).1 = Raise e
              /\ (e = OSError
                  \/ read_int w (os_path.join2 src_dir LASTCHANGE) = Raise e))).
Proof.
  split.
  { unfold run_main, main, exit_conditions. intros Hraise.
    destruct (Nat.eqb_spec (length args) 1) as [Hargs|Hargs]; cbn [negb].
    2:{ exists 1. simpl. split; [reflexivity|]. split; [auto|].
        split; [split; [auto | discriminate]|].
        intros ? ? Hno. destruct Hno. auto. }
    destruct (truthy (Options.version options)) eqn:Hversion; cbn [negb].
    2:{ exists 1. simpl. split; [reflexivity|]. split; [auto|].
        split; [split; [auto | discriminate]|].
        intros ? ? Hno. destruct Hno. auto. }
    destruct (Options.src_dir options) as [src_dir|] eqn:Hsrc.
    2:{ destruct (Hraise TypeError). reflexivity. }
    destruct (exists_ (facts_at w src_dir)) eqn:Hexists; cbn [negb].
    2:{ exists 1. simpl. split; [reflexivity|]. split; [auto|].
        split; [split; [eauto 6 | discriminate]|].
        intros ? ? Hno. destruct Hno. eauto 6. }
    cbv zeta in *.
    destruct (can_open_output w _); cbn [negb] in *.
    2:{ destruct (Hraise OSError). reflexivity. }
    destruct (can_start_xz w); cbn [negb] in *.
    2:{ destruct (Hraise OSError). reflexivity. }
    destruct (read_int w (os_path.join2 src_dir LASTCHANGE)) as [timestamp|e].
    2:{ destruct (Hraise e). reflexivity. }
    unfold bind in *.
    destruct (add_sources w _ options src_dir _ _) as [[[]|e] s'] eqn:Hrun.
    2:{ destruct (Hraise e). reflexivity. }
    assert (forall d directory,
              Some src_dir = Some d -> Options.test_data options = true ->
              In directory TEST_DIRS ->
              isdir (facts_at w (os_path.join2 d directory)) = false ->
              In (skip_notice (os_path.join2 d directory)) (stdout s')) as Hnotice.
    { intros d directory [= <-] Htest Hdir Hmissing.
      eapply add_sources_notice; eauto. }
    destruct (Z.eqb_spec (xz_exit_status w) 0) as [Hxz|Hxz]; cbn [negb].
    - exists 0. simpl. split; [reflexivity|]. split; [auto|]. split.
      + split; [congruence|].
        intros [H|[H|[(d & [= <-] & H)|H]]]; congruence.
      + intros d directory _. apply Hnotice.
    - exists 1. simpl. split; [reflexivity|]. split; [auto|]. split.
      + split; [auto | discriminate].
      + intros d directory Hno. destruct Hno. auto. }
  intros Hargs Hversion. unfold run_main, main.
  rewrite Hargs, Hversion. cbn [Nat.eqb negb]. split.
  - intros ->. reflexivity.
  - intros src_dir -> Hthere Hfail. rewrite Hthere. cbn [negb]. cbv zeta.
    destruct (can_open_output w (hd EmptyString args +:+ ".tar.xz")) eqn:Hopen;
      cbn [negb]; [|exists OSError; split; [reflexivity | left; reflexivity]].
    destruct (can_start_xz w) eqn:Hxz;
      cbn [negb]; [|exists OSError; split; [reflexivity | left; reflexivity]].
    destruct Hfail as [Hfail|[Hfail|[e Hread]]]; [discriminate Hfail..|].
    rewrite Hread. exists e. split; [reflexivity | right; reflexivity].
Qed.

Lemma main_exit_status_witness :
  (exists n,
     (run_main (sample_world (sample_host "alice" "staff")
                  (sample_tree 1000 50 1600000000) 0)
        (sample_options false true) ["/tmp/chromium-1.2.3-testdata"]).1 = Return n
     /\ (n = 0 \/ n = 1)
     /\ (n <> 0 <->
         exit_conditions (sample_world (sample_host "alice" "staff")
                            (sample_tree 1000 50 1600000000) 0)
           (sample_options false true) ["/tmp/chromium-1.2.3-testdata"])
     /\ (forall src_dir directory,
           ~ exit_conditions (sample_world (sample_host "alice" "staff")
                                (sample_tree 1000 50 1600000000) 0)
               (sample_options false true) ["/tmp/chromium-1.2.3-testdata"] ->
           Options.src_dir (sample_options false true) = Some src_dir ->
           Options.test_data (sample_options false true) = true ->
           In directory TEST_DIRS ->
           isdir (facts_at (sample_world (sample_host "alice" "staff")
                              (sample_tree 1000 50 1600000000) 0)
                    (os_path.join2 src_dir directory)) = false ->
           In (skip_notice (os_path.join2 src_dir directory))
              (stdout (run_main (sample_world (sample_host "alice" "staff")
                                   (sample_tree 1000 50 1600000000) 0)
                         (sample_options false true)
                         ["/tmp/chromium-1.2.3-testdata"]).2)))
  /\ (exists e,
        (run_main (sample_world_without_provenance 0)
           (sample_options false false) ["/tmp/chromium-1.2.3"]).1 = Raise e
        /\ (e = OSError
            \/ read_int (sample_world_without_provenance 0)
                 (os_path.join2 "/src" LASTCHANGE) = Raise e)).
Proof.
  split.
  - apply (proj1 (main_exit_status
                    (sample_world (sample_host "alice" "staff")
                       (sample_tree 1000 50 1600000000) 0)
                    (sample_options false true) ["/tmp/chromium-1.2.3-testdata"])).
    intros e. vm_compute. discriminate.
  - apply (proj2 (proj2 (main_exit_status (sample_world_without_provenance 0)
                           (sample_options false false) ["/tmp/chromium-1.2.3"])
                    eq_refl eq_refl) "/src").
    + reflexivity.
    + reflexivity.
    + right. right. exists OSError. reflexivity.
Defined.

(** The run of the witness: no Test Data Directory is there, [main] returns
    0, writes no member, and prints one notice for each directory. *)
Example test_data_all_missing :
  (run_main (sample_world (sample_host "alice" "staff")
               (sample_tree 1000 50 1600000000) 0)
     (sample_options false true) ["/tmp/chromium-1.2.3-testdata"]).1 = Return 0
  /\ members (run_main (sample_world (sample_host "alice" "staff")
                          (sample_tree 1000 50 1600000000) 0)
                (sample_options false true) ["/tmp/chromium-1.2.3-testdata"]).2 = []
  /\ stdout (run_main (sample_world (sample_host "alice" "staff")
                          (sample_tree 1000 50 1600000000) 0)
                (sample_options false true) ["/tmp/chromium-1.2.3-testdata"]).2
     = map (fun directory => skip_notice (os_path.join2 "/src" directory)) TEST_DIRS.
Proof. repeat split; vm_compute; reflexivity. Qed.

(** C9 as it is written fails where an exception ends the run before
    [xz.wait()]: the checkout has no provenance file, the compressor ends
    with status 1, which is one of the four conditions, and [main] raises
    and so returns nothing, 0 or other. *)
Lemma main_exit_status_counterexample :
  exit_conditions (sample_world_without_provenance 1)
    (sample_options false false) ["/tmp/chromium-1.2.3"]
  /\ xz_exit_status (sample_world_without_provenance 1) <> 0
  /\ (run_main (sample_world_without_provenance 1)
        (sample_options false false) ["/tmp/chromium-1.2.3"]).1 = Raise OSError
  /\ ~ (exists n,
          (run_main (sample_world_without_provenance 1)
             (sample_options false false) ["/tmp/chromium-1.2.3"]).1 = Return n
          /\ n <> 0).
Proof.
  split; [|split; [|split]].
  - unfold exit_conditions. do 3 right. discriminate.
  - discriminate.
  - vm_compute. reflexivity.
  - intros (n & H & _). vm_compute in H. discriminate.
Qed.

(** ** When the traversal returns *)

Lemma join2_nonempty (a b : string) :
  a <> EmptyString -> os_path.join2 a b <> EmptyString.
Proof.
  intros Ha. unfold os_path.join2, os_path.join, os_path.join_step. simpl.
  destruct (str.startswith b "/") eqn:Hb.
  - apply startswith_spec in Hb as [rest ->]. discriminate.
  - destruct a as [|c a]; [congruence|].
    destruct (_ || _); rewrite app_cons; discriminate.
Qed.

Lemma returns_ret : returns (ret tt).
Proof. intros s. reflexivity. Qed.

Lemma returns_print (line : string) : returns (print line).
Proof. intros s. reflexivity. Qed.

Lemma returns_addfile (ti : TarInfo.t) : returns (addfile ti).
Proof. intros s. reflexivity. Qed.

Lemma returns_bind (m : io unit) (k : unit -> io unit) :
  returns m -> (forall u, returns (k u)) -> returns (bind m k).
Proof.
  intros Hm Hk s. unfold bind. specialize (Hm s).
  destruct (m s) as [[u|e] s']; simpl in Hm; [apply Hk | discriminate].
Qed.

Lemma returns_for_each {A} (xs : list A) (body : A -> io unit) :
  Forall (fun x => returns (body x)) xs -> returns (for_each xs body).
Proof.
  induction 1 as [|x xs Hx _ IH]; simpl.
  - apply returns_ret.
  - apply returns_bind; [exact Hx | intros _; exact IH].
Qed.

Lemma returns_report_skipped (self : MyTarFile) (name : string) :
  returns (__report_skipped self name).
Proof.
  unfold __report_skipped. destruct (__verbose self);
    [apply returns_print | apply returns_ret].
Qed.

Lemma returns_report_added (self : MyTarFile) (name : string) :
  returns (__report_added self name).
Proof.
  unfold __report_added. destruct (__verbose self);
    [apply returns_print | apply returns_ret].
Qed.

Lemma TarFile_add_returns (host : Host) (self : MyTarFile) (node : fsnode)
    (children : list child_add) (name arcname : string) :
  name <> EmptyString ->
  Forall (fun child : child_add =>
            forall n a, n <> EmptyString -> returns (child.2 n a)) children ->
  returns (TarFile_add host node children name arcname
             (fun tarinfo => Some (__filter self tarinfo))).
Proof.
  intros Hname Hchildren. unfold TarFile_add.
  destruct (gettarinfo host node arcname) as [ti|]; [|apply returns_ret].
  destruct (TarInfo.isreg _); [apply returns_addfile|].
  destruct (TarInfo.isdir _); [|apply returns_addfile].
  apply returns_bind; [apply returns_addfile|]. intros _.
  apply returns_for_each, sorted_by_Forall.
  eapply Forall_impl; [exact Hchildren|]. intros child H.
  apply H, join2_nonempty, Hname.
Qed.

(** In the embedding, where reading the tree and writing the archive do
    not fail, [MyTarFile.add] on a path that is not empty returns: no
    guard raises. *)
Lemma add_returns (host : Host) (self : MyTarFile) (node : fsnode) :
  forall name arcname,
    name <> EmptyString -> returns (add host self node name arcname).
Proof.
  induction node as [st|st entries IH|st readlink target|st kind]
    using fsnode_nested_ind; intros name arcname Hname; cbn [add];
    destruct (rel_name_of_nonempty (getcwd host) self name Hname) as [rel Hrel];
    rewrite (add_check_guards _ _ _ _ _ Hrel);
    (destruct (guards _ _ _ _ _ _); [apply returns_report_skipped|]);
    (apply returns_bind; [apply returns_report_added|]; intros _);
    (apply TarFile_add_returns; [exact Hname|]).
  - constructor.
  - induction IH as [|[f child] entries Hchild _ IHe]; simpl.
    + constructor.
    + constructor; [exact Hchild | exact IHe].
  - constructor.
  - constructor.
Qed.

Lemma isdir_exists (f : path_facts) : isdir f = true -> exists_ f = true.
Proof. unfold isdir, exists_. destruct (stat_kind f) as [[| |]|]; congruence. Qed.

(** * More on the code *)

(** ** The guards that no claim is about *)

(** X1.  An entry whose base name is [__pycache__] or ends in [.pyc] is dropped
    in every mode, by the guard of line 158 or, for a broken symbolic
    link, by the one before it. *)
Theorem bytecode_dropped
    (cwd : string) (self : MyTarFile) (name : string) (f : path_facts) :
  name <> EmptyString ->
  os_path.basename name = "__pycache__"
  \/ (exists stem, os_path.basename name = stem +:+ ".pyc") ->
  add_check cwd self name f = Some (Skipped BrokenSymlink)
  \/ add_check cwd self name f = Some (Skipped BytecodeCache).
Proof.
  intros Hname Hbase.
  destruct (rel_name_of_nonempty cwd self name Hname) as [rel Hrel].
  rewrite (add_check_guards cwd self name f rel Hrel). unfold guards.
  destruct (islink f && negb (exists_ f)); [left; reflexivity|]. right.
  assert (String.eqb (os_path.basename name) "__pycache__"
          || str.endswith (os_path.basename name) ".pyc" = true) as ->;
    [|reflexivity].
  apply orb_true_iff. destruct Hbase as [->|[stem Hstem]].
  - left. reflexivity.
  - right. apply endswith_spec. exists stem. exact Hstem.
Qed.

Lemma bytecode_dropped_witness :
  add_check "/" (archive_at "/src" false) "/src/tools/__pycache__" directory
  = Some (Skipped BrokenSymlink)
  \/ add_check "/" (archive_at "/src" false) "/src/tools/__pycache__" directory
     = Some (Skipped BytecodeCache).
Proof.
  apply (bytecode_dropped "/" (archive_at "/src" false) "/src/tools/__pycache__"
           directory).
  - discriminate.
  - left. vm_compute. reflexivity.
Defined.

(** X2.  With size reduction on, an entry whose path contains [ChangeLog]
    anywhere, the source root included, is dropped whatever it is: a
    directory, a build file and an Essential File Override go as well. *)
Theorem changelog_dropped
    (cwd : string) (self : MyTarFile) (name : string) (f : path_facts) :
  __remove_nonessential_files self = true ->
  (exists a b, name = a +:+ "ChangeLog" +:+ b) ->
  exists rule, add_check cwd self name f = Some (Skipped rule).
Proof.
  intros Hon Hlog.
  assert (name <> EmptyString) as Hname.
  { destruct Hlog as (a & b & ->). destruct a; discriminate. }
  destruct (rel_name_of_nonempty cwd self name Hname) as [rel Hrel].
  rewrite (add_check_guards cwd self name f rel Hrel). unfold guards.
  apply contains_spec in Hlog. rewrite Hon, Hlog.
  do 4 (match goal with
        | |- exists rule, Some (if ?c then _ else _) = _ =>
            destruct c; [eexists; reflexivity|]
        end).
  eexists. reflexivity.
Qed.

Lemma changelog_dropped_witness :
  exists rule,
    add_check "/" (archive_at "/src" true) "/src/third_party/ChangeLogs/BUILD.gn"
      regular_file
    = Some (Skipped rule).
Proof.
  apply (changelog_dropped "/" (archive_at "/src" true)
           "/src/third_party/ChangeLogs/BUILD.gn" regular_file).
  - reflexivity.
  - exists "/src/third_party/", "s/BUILD.gn". vm_compute. reflexivity.
Defined.

(** X3.  The guard on the listed directories never drops a directory: an entry
    that is neither a regular file nor a symbolic link is kept in every
    mode, also at or below a Nonessential or Test Data Directory, when its
    base name is none of [__pycache__], [.svn], [out], [.git], does not end
    in [.pyc], and, for size reduction, its path is free of [ChangeLog].
    So the directories below a listed directory stay in the archive, empty
    of files. *)
Theorem directory_never_pruned
    (cwd : string) (self : MyTarFile) (name : string) (f : path_facts) :
  name <> EmptyString ->
  islink f = false ->
  isfile f = false ->
  ~ In (os_path.basename name) ["__pycache__"; ".svn"; "out"; ".git"] ->
  str.endswith (os_path.basename name) ".pyc" = false ->
  __remove_nonessential_files self = false \/ str.contains "ChangeLog" name = false ->
  add_check cwd self name f = Some Added.
Proof.
  intros Hname Hlink Hfile Hbase Hpyc Hlog.
  destruct (rel_name_of_nonempty cwd self name Hname) as [rel Hrel].
  rewrite (add_check_guards cwd self name f rel Hrel). f_equal. unfold guards.
  rewrite Hlink, Hfile, Hpyc. cbn [andb orb].
  destruct (String.eqb_spec (os_path.basename name) "__pycache__") as [E|_].
  { destruct Hbase. rewrite E. simpl. tauto. }
  destruct (py_in (os_path.basename name) [".svn"; "out"]) eqn:Hvcs.
  { apply py_in_spec in Hvcs. destruct Hbase. simpl in *. tauto. }
  destruct (String.eqb_spec (os_path.basename name) ".git") as [E|_].
  { destruct Hbase. rewrite E. simpl. tauto. }
  cbn [andb orb]. rewrite !andb_false_r.
  destruct (__remove_nonessential_files self); [|reflexivity].
  destruct Hlog as [Hoff | ->]; [discriminate | reflexivity].
Qed.

Lemma directory_never_pruned_witness :
  add_check "/" (archive_at "/src" true) "/src/third_party/blink/web_tests/fast"
    directory
  = Some Added.
Proof.
  apply (directory_never_pruned "/" (archive_at "/src" true)
           "/src/third_party/blink/web_tests/fast" directory).
  - discriminate.
  - reflexivity.
  - reflexivity.
  - vm_compute. intros [H|[H|[H|[H|[]]]]]; discriminate.
  - vm_compute. reflexivity.
  - right. vm_compute. reflexivity.
Defined.

(** X4.  With size reduction on, a symbolic link at or below a listed directory
    is dropped like a regular file, also when it points to a directory,
    unless its base name matches the build-file pattern or its relative
    path is an Essential File Override. *)
Theorem listed_symlink_dropped
    (cwd : string) (self : MyTarFile) (name : string) (f : path_facts)
    (rel dir : string) :
  rel_name_of cwd self name = Some rel ->
  __remove_nonessential_files self = true ->
  islink f = true ->
  In dir nonessential_dirs \/ In dir TEST_DIRS ->
  rel = dir \/ (exists rest, rel = dir +:+ "/" +:+ rest) ->
  re.search keep_pattern (os_path.basename name) = false ->
  ~ In rel ESSENTIAL_FILES ->
  exists rule, add_check cwd self name f = Some (Skipped rule).
Proof.
  intros Hrel Hon Hlink Hdir Hunder Hre Hess.
  rewrite (add_check_guards cwd self name f rel Hrel). unfold guards.
  assert (keep_file rel (os_path.basename name) = false) as Hkeep.
  { unfold keep_file. rewrite Hre. apply py_in_false. exact Hess. }
  assert (in_nonessential_dir rel = true) as Hin.
  { apply in_nonessential_dir_spec. exists dir. split; assumption. }
  rewrite Hon, Hkeep, Hin, Hlink. cbn [negb andb orb]. rewrite orb_true_r.
  do 5 (match goal with
        | |- exists rule, Some (if ?c then _ else _) = _ =>
            destruct c; [eexists; reflexivity|]
        end).
  eexists. reflexivity.
Qed.

Lemma listed_symlink_dropped_witness :
  exists rule,
    add_check "/" (archive_at "/src" true) "/src/ios/third_party" link_to_directory
    = Some (Skipped rule).
Proof.
  apply (listed_symlink_dropped "/" (archive_at "/src" true) "/src/ios/third_party"
           link_to_directory "ios/third_party" "ios").
  - vm_compute. reflexivity.
  - reflexivity.
  - reflexivity.
  - left. simpl. tauto.
  - right. exists "third_party". vm_compute. reflexivity.
  - vm_compute. reflexivity.
  - simpl. intros [H|[H|[H|[]]]]; discriminate.
Defined.

(** X5.  An entry named [.git] whose relative path starts with an Essential
    Git-Metadata Prefix, and that is no broken symbolic link, is kept with
    size reduction off.  With size reduction on, and a path free of
    [ChangeLog], it is kept exactly when it is neither a regular file nor a
    symbolic link: the prefix [third_party/rust-src/] lies below the
    Nonessential Directory [third_party/rust-src], so a [.git] file or
    link there goes and a [.git] directory stays. *)
Theorem essential_git_metadata
    (cwd : string) (self : MyTarFile) (name : string) (f : path_facts)
    (rel p rest : string) :
  rel_name_of cwd self name = Some rel ->
  os_path.basename name = ".git" ->
  In p ESSENTIAL_GIT_DIRS ->
  rel = p +:+ rest ->
  (islink f = true -> exists_ f = true) ->
  (__remove_nonessential_files self = false ->
     add_check cwd self name f = Some Added)
  /\ (__remove_nonessential_files self = true ->
      str.contains "ChangeLog" name = false ->
      (add_check cwd self name f = Some Added
       <-> isfile f = false /\ islink f = false)).
Proof.
  intros Hrel Hbase Hp -> Hlive.
  rewrite (add_check_guards cwd self name f _ Hrel).
  assert (islink f && negb (exists_ f) = false) as Hl.
  { destruct (islink f); [rewrite Hlive; reflexivity | reflexivity]. }
  destruct Hp as [<-|[]].
  assert (existsb (str.startswith ("third_party/rust-src/" +:+ rest))
            ESSENTIAL_GIT_DIRS = true) as Hstart.
  { simpl. rewrite startswith_app. reflexivity. }
  assert (keep_file ("third_party/rust-src/" +:+ rest) ".git" = false) as Hkeep.
  { unfold keep_file. apply orb_false_iff. split; [vm_compute; reflexivity|].
    apply py_in_false. simpl. intros [H|[H|[H|[]]]]; discriminate. }
  assert (in_nonessential_dir ("third_party/rust-src/" +:+ rest) = true) as Hin.
  { apply in_nonessential_dir_spec. exists "third_party/rust-src".
    split; [left; simpl; tauto|]. right. exists rest. reflexivity. }
  unfold guards. rewrite Hl, Hbase, Hstart. cbn [String.eqb negb andb orb].
  change (str.endswith ".git" ".pyc") with false.
  change (py_in ".git" [".svn"; "out"]) with false.
  change (String.eqb ".git" "__pycache__") with false.
  cbn [negb andb orb]. split.
  - intros ->. reflexivity.
  - intros -> ->. rewrite Hkeep, Hin. clear Hkeep Hin Hstart Hrel.
    cbn [negb andb].
    destruct (isfile f), (islink f); cbn [orb]; split; intros H;
      solve [ discriminate H
            | split; reflexivity
            | reflexivity
            | destruct H as [H1 H2]; first [discriminate H1 | discriminate H2] ].
Qed.

Lemma essential_git_metadata_witness :
  add_check "/" (archive_at "/src" false)
    "/src/third_party/rust-src/src/tools/cargo/.git" regular_file
  = Some Added.
Proof.
  refine (proj1 (essential_git_metadata "/" (archive_at "/src" false)
                   "/src/third_party/rust-src/src/tools/cargo/.git" regular_file
                   "third_party/rust-src/src/tools/cargo/.git"
                   "third_party/rust-src/" "src/tools/cargo/.git" _ _ _ _ _) _).
  - vm_compute. reflexivity.
  - vm_compute. reflexivity.
  - left. reflexivity.
  - reflexivity.
  - discriminate.
  - reflexivity.
Defined.

(** A [.git] file of the Rust checkout under size reduction: dropped. *)
Example essential_git_file_reduced :
  add_check "/" (archive_at "/src" true)
    "/src/third_party/rust-src/src/tools/cargo/.git" regular_file
  = Some (Skipped NonessentialDir).
Proof. vm_compute. reflexivity. Qed.

(** ** The normalizer, once more *)

(** X6.  Normalizing twice is normalizing once with the later timestamp: the
    second pass replaces the timestamp and finds the owner-write bit set. *)
Theorem filter_twice (self1 self2 : MyTarFile) (tar_info : TarInfo.t) :
  __filter self2 (__filter self1 tar_info) = __filter self2 tar_info.
Proof.
  unfold __filter. simpl. f_equal.
  rewrite <- Z.lor_assoc, Z.lor_diag. reflexivity.
Qed.

(** ** Two archive objects on one tree *)

(** [MyTarFile.add] on any object, in one equation. *)
Lemma add_unfold (host : Host) (self : MyTarFile) (node : fsnode)
    (name arcname : string) :
  add host self node name arcname
  = match add_check (getcwd host) self name (facts_of node) with
    | None => raise ValueError
    | Some (Skipped _) => __report_skipped self name
    | Some Added =>
        __report_added self name >>
        TarFile_add host node (children_of (add host self) node) name arcname
          (fun tarinfo => Some (__filter self tarinfo))
    end.
Proof. destruct node; reflexivity. Qed.

Lemma guards_flag (self1 self2 : MyTarFile) (f : path_facts)
    (name rel d b : string) :
  __remove_nonessential_files self1 = __remove_nonessential_files self2 ->
  guards self1 f name rel d b = guards self2 f name rel d b.
Proof. intros H. unfold guards. rewrite H. reflexivity. Qed.

(** The first guard of the chain at hand, both ways. *)
Ltac first_guard :=
  match goal with
  | |- (if ?c then _ else _) = _ -> _ => destruct c
  end.

(** What size reduction keeps is kept without it. *)
Lemma guards_reduced (self1 self2 : MyTarFile) (f : path_facts)
    (name rel d b : string) :
  __remove_nonessential_files self2 = false ->
  guards self1 f name rel d b = Added ->
  guards self2 f name rel d b = Added.
Proof.
  intros Hoff. unfold guards. rewrite Hoff.
  do 4 (first_guard; [discriminate|]).
  intros _. reflexivity.
Qed.

(** What is skipped without size reduction is skipped with it, by the
    same guard. *)
Lemma guards_skipped_off (self1 self2 : MyTarFile) (f : path_facts)
    (name rel d b : string) (rule : skip_rule) :
  __remove_nonessential_files self2 = false ->
  guards self2 f name rel d b = Skipped rule ->
  guards self1 f name rel d b = Skipped rule.
Proof.
  intros Hoff. unfold guards. rewrite Hoff.
  do 4 (first_guard; [auto|]).
  discriminate.
Qed.

Lemma add_check_None (cwd : string) (self : MyTarFile) (name : string)
    (f : path_facts) :
  add_check cwd self name f = None <-> name = EmptyString.
Proof.
  split.
  - intros H. destruct (String.eqb_spec name EmptyString) as [E|E]; [exact E|].
    destruct (rel_name_of_nonempty cwd self name E) as [rel Hrel].
    rewrite (add_check_guards _ _ _ _ _ Hrel) in H. discriminate.
  - intros ->. reflexivity.
Qed.

Section Related.

Context (R : list TarInfo.t -> list TarInfo.t -> Prop).
Context (R_snoc : forall l1 l2 ti, R l1 l2 -> R (l1 ++ [ti]) (l2 ++ [ti])).

Lemma rel_ret {A} (a : A) : rel_io R (ret a) (ret a).
Proof. intros s1 s2 H. auto. Qed.

Lemma rel_raise {A} (e : exn) : rel_io R (@raise A e) (@raise A e).
Proof. intros s1 s2 H. auto. Qed.

Lemma rel_print (line1 line2 : string) : rel_io R (print line1) (print line2).
Proof. intros s1 s2 H. split; [reflexivity | exact H]. Qed.

Lemma rel_addfile (ti : TarInfo.t) : rel_io R (addfile ti) (addfile ti).
Proof. intros s1 s2 H. split; [reflexivity | apply R_snoc, H]. Qed.

Lemma rel_bind {A B} (m1 m2 : io A) (k1 k2 : A -> io B) :
  rel_io R m1 m2 -> (forall a, rel_io R (k1 a) (k2 a)) ->
  rel_io R (bind m1 k1) (bind m2 k2).
Proof.
  intros Hm Hk s1 s2 H. unfold bind.
  destruct (Hm s1 s2 H) as [Hres Hs].
  destruct (m1 s1) as [[a1|e1] s1'], (m2 s2) as [[a2|e2] s2'];
    simpl in *; try discriminate.
  - injection Hres as ->. apply Hk. exact Hs.
  - injection Hres as ->. split; [reflexivity | exact Hs].
Qed.

Lemma rel_for_each {A B} (Q : A -> B -> Prop) (xs : list A) (ys : list B)
    (body1 : A -> io unit) (body2 : B -> io unit) :
  Forall2 Q xs ys ->
  (forall x y, Q x y -> rel_io R (body1 x) (body2 y)) ->
  rel_io R (for_each xs body1) (for_each ys body2).
Proof.
  intros HQ Hbody. induction HQ as [|x y xs ys Hxy _ IH]; simpl.
  - apply rel_ret.
  - apply rel_bind; [apply Hbody; exact Hxy | intros _; exact IH].
Qed.

(** The reports of two archive objects, verbose or not, go together. *)
Lemma rel_report_skipped (self1 self2 : MyTarFile) (name : string) :
  rel_io R (__report_skipped self1 name) (__report_skipped self2 name).
Proof.
  intros s1 s2 H. unfold __report_skipped.
  destruct (__verbose self1), (__verbose self2); split; auto.
Qed.

Lemma rel_report_added (self1 self2 : MyTarFile) (name : string) :
  rel_io R (__report_added self1 name) (__report_added self2 name).
Proof.
  intros s1 s2 H. unfold __report_added.
  destruct (__verbose self1), (__verbose self2); split; auto.
Qed.

Context (host : Host) (self1 self2 : MyTarFile).
Context (Hsrc : __src_dir self1 = __src_dir self2).
Context (Hmtime : __mtime self1 = __mtime self2).
Context (Hflags :
  __remove_nonessential_files self1 = __remove_nonessential_files self2
  \/ (__remove_nonessential_files self2 = false
      /\ forall l1 l2 ms, R l1 l2 -> R l1 (l2 ++ ms))).

Lemma filter_same (ti : TarInfo.t) : __filter self1 ti = __filter self2 ti.
Proof. unfold __filter. rewrite Hmtime. reflexivity. Qed.

(** The verdicts of the two objects on an entry: the same, or the first
    object skips what the second adds. *)
Lemma add_check_related (name : string) (f : path_facts) :
  add_check (getcwd host) self1 name f = add_check (getcwd host) self2 name f
  \/ ((exists rule, add_check (getcwd host) self1 name f = Some (Skipped rule))
      /\ add_check (getcwd host) self2 name f = Some Added
      /\ forall l1 l2 ms, R l1 l2 -> R l1 (l2 ++ ms)).
Proof.
  unfold add_check, rel_name_of. rewrite <- Hsrc.
  destruct (os_path.relpath _ name _) as [rel|]; [|left; reflexivity].
  destruct (os_path.split name) as [d b].
  destruct Hflags as [Hsame|[Hoff Hgrow]].
  - left. rewrite (guards_flag self1 self2 f name rel d b Hsame). reflexivity.
  - destruct (guards self2 f name rel d b) as [rule2|] eqn:H2.
    + left. rewrite (guards_skipped_off self1 self2 f name rel d b rule2 Hoff H2).
      reflexivity.
    + destruct (guards self1 f name rel d b) as [rule|] eqn:H1.
      * right. eauto.
      * left. reflexivity.
Qed.

Lemma TarFile_add_related (node : fsnode) (children1 children2 : list child_add)
    (name arcname : string) :
  Forall2 (fun c1 c2 : child_add =>
             c1.1 = c2.1 /\ forall n a, rel_io R (c1.2 n a) (c2.2 n a))
    (sorted_by fst children1) (sorted_by fst children2) ->
  rel_io R
    (TarFile_add host node children1 name arcname
       (fun tarinfo => Some (__filter self1 tarinfo)))
    (TarFile_add host node children2 name arcname
       (fun tarinfo => Some (__filter self2 tarinfo))).
Proof.
  intros Hchildren. unfold TarFile_add.
  destruct (gettarinfo host node arcname) as [ti|]; [|apply rel_ret].
  rewrite (filter_same ti).
  destruct (TarInfo.isreg _); [apply rel_addfile|].
  destruct (TarInfo.isdir _); [|apply rel_addfile].
  apply rel_bind; [apply rel_addfile|]. intros _.
  eapply rel_for_each; [exact Hchildren|].
  intros c1 c2 [Hf Hadd]. rewrite Hf. apply Hadd.
Qed.

(** One step of [MyTarFile.add] of the two objects, given the steps below. *)
Lemma add_related_node (node : fsnode) (name arcname : string) :
  Forall2 (fun c1 c2 : child_add =>
             c1.1 = c2.1 /\ forall n a, rel_io R (c1.2 n a) (c2.2 n a))
    (sorted_by fst (children_of (add host self1) node))
    (sorted_by fst (children_of (add host self2) node)) ->
  rel_io R (add host self1 node name arcname) (add host self2 node name arcname).
Proof.
  intros Hchildren.
  destruct (add_check_related name (facts_of node))
    as [Hsame|([rule Hskip] & Hadded & Hgrow)].
  - rewrite !add_unfold, Hsame.
    destruct (add_check (getcwd host) self2 name _) as [[rule|]|];
      [apply rel_report_skipped | | apply rel_raise].
    apply rel_bind; [apply rel_report_added|]. intros _.
    apply TarFile_add_related. exact Hchildren.
  - intros s1 s2 Hs.
    assert (name <> EmptyString) as Hname by (intros ->; discriminate Hadded).
    rewrite (add_returns host self2 node name arcname Hname s2).
    destruct (add_appends host self2 node name arcname s2)
      as (ms & out & Hms & _ & _).
    rewrite Hms, (add_unfold host self1), Hskip.
    unfold __report_skipped. destruct (__verbose self1);
      (split; [reflexivity | apply Hgrow, Hs]).
Qed.

(** [MyTarFile.add] of the two objects on one tree. *)
Lemma add_related (node : fsnode) :
  forall name arcname,
    rel_io R (add host self1 node name arcname) (add host self2 node name arcname).
Proof.
  induction node as [st|st entries IH|st readlink target|st kind]
    using fsnode_nested_ind; intros name arcname; apply add_related_node;
    cbn [children_of]; try (constructor; fail).
  rewrite !(sorted_by_map _ fst fst) by (intros [? ?]; reflexivity).
  apply (sorted_by_Forall fst) in IH.
  induction IH as [|[f child] entries' Hchild _ IHe]; simpl.
  - constructor.
  - constructor; [|exact IHe]. split; [reflexivity|]. exact Hchild.
Qed.

End Related.

(** ** Two runs that differ in their options *)

Section RelatedRuns.

Context (R : list TarInfo.t -> list TarInfo.t -> Prop).
Context (R_snoc : forall l1 l2 ti, R l1 l2 -> R (l1 ++ [ti]) (l2 ++ [ti])).
Context (w : World) (o1 o2 : Options.t).
Context (Hbasename : Options.basename o1 = Options.basename o2).
Context (Htest : Options.test_data o1 = Options.test_data o2).
Context (Hsrc : Options.src_dir o1 = Options.src_dir o2).
Context (Hversion : Options.version o1 = Options.version o2).
Context (Hflags :
  Options.remove_nonessential_files o1 = Options.remove_nonessential_files o2
  \/ (Options.remove_nonessential_files o2 = false
      /\ forall l1 l2 ms, R l1 l2 -> R l1 (l2 ++ ms))).

Lemma add_path_related (src_dir : string) (timestamp : Z) (name arcname : string) :
  exists_ (facts_at w name) = true ->
  rel_io R (add_path w (new_archive o1 src_dir timestamp) name arcname)
    (add_path w (new_archive o2 src_dir timestamp) name arcname).
Proof.
  unfold add_path, facts_at. destruct (lookup w name) as [node|]; [|discriminate].
  intros _. apply add_related; [exact R_snoc | reflexivity | reflexivity | exact Hflags].
Qed.

Lemma add_sources_related (src_dir : string) (timestamp : Z)
    (output_basename : string) :
  exists_ (facts_at w src_dir) = true ->
  rel_io R
    (add_sources w (new_archive o1 src_dir timestamp) o1 src_dir output_basename)
    (add_sources w (new_archive o2 src_dir timestamp) o2 src_dir output_basename).
Proof.
  intros Hthere. unfold add_sources. rewrite Htest.
  destruct (Options.test_data o2); [|apply add_path_related; exact Hthere].
  apply (rel_for_each R eq).
  - apply Forall_Forall2_diag, Forall_forall. intros directory _. reflexivity.
  - intros directory ? <-. cbv zeta.
    destruct (isdir (facts_at w (os_path.join2 src_dir directory))) eqn:Hdir;
      cbn [negb]; [|apply rel_print].
    apply add_path_related, isdir_exists, Hdir.
Qed.

(** [main] on the two sets of options. *)
Lemma main_related (args : list string) : rel_io R (main w o1 args) (main w o2 args).
Proof.
  unfold main. rewrite Hversion, Hsrc, Hbasename.
  destruct (negb (length args =? 1)%nat).
  { repeat (apply rel_bind; [apply rel_print|]; intros _). apply rel_ret. }
  destruct (negb (truthy (Options.version o2))).
  { apply rel_bind; [apply rel_print|]; intros _. apply rel_ret. }
  destruct (Options.src_dir o2) as [src_dir|]; [|apply rel_raise].
  destruct (exists_ (facts_at w src_dir)) eqn:Hthere; cbn [negb].
  2: { apply rel_bind; [apply rel_print|]; intros _. apply rel_ret. }
  cbv zeta.
  destruct (negb (can_open_output w _)); [apply rel_raise|].
  destruct (negb (can_start_xz w)); [apply rel_raise|].
  destruct (read_int w (os_path.join2 src_dir LASTCHANGE)) as [timestamp|e];
    [|apply rel_raise].
  apply rel_bind; [apply add_sources_related; exact Hthere|]. intros _.
  destruct (negb (xz_exit_status w =? 0)); [|apply rel_ret].
  apply rel_bind; [apply rel_print|]; intros _. apply rel_ret.
Qed.

End RelatedRuns.

Lemma sublist_map {A B} (g : A -> B) (l1 l2 : list A) :
  l1 `sublist_of` l2 -> map g l1 `sublist_of` map g l2.
Proof. induction 1; simpl; constructor; assumption. Qed.

(** X10.  [--remove-nonessential-files] only takes members away.  Of two
    runs on one machine that differ in this option only and both end with
    status 0, so that no exception ended either of them, the run with the
    option writes a part of the members of the other run, in the same
    order, each under the same name and with the same mtime, uid, gid,
    uname and gname. *)
Theorem size_reduction_only_removes
    (w : World) (options : Options.t) (args : list string) :
  (run_main w (with_size_reduction options) args).1 = Return 0 ->
  (run_main w options args).1 = Return 0 ->
  map entry_metadata (members (run_main w (with_size_reduction options) args).2)
  `sublist_of` map entry_metadata (members (run_main w options args).2).
Proof.
  intros _ _. apply sublist_map.
  apply (main_related sublist); try reflexivity.
  - intros l1 l2 ti H. apply sublist_app; [exact H | reflexivity].
  - simpl. destruct (Options.remove_nonessential_files options); [left; reflexivity|].
    right. split; [reflexivity|]. intros l1 l2 ms H. apply sublist_inserts_r, H.
Qed.

Lemma size_reduction_only_removes_witness :
  map entry_metadata
    (members (run_main alice_world (with_size_reduction (sample_options false false))
                ["/tmp/chromium-1.2.3"]).2)
  `sublist_of`
  map entry_metadata
    (members (run_main alice_world (sample_options false false)
                ["/tmp/chromium-1.2.3"]).2).
Proof.
  apply (size_reduction_only_removes alice_world (sample_options false false)
           ["/tmp/chromium-1.2.3"]).
  - vm_compute. reflexivity.
  - vm_compute. reflexivity.
Defined.

(** X11.  [--verbose] is observational.  Of two runs on one machine that
    differ in this option only and both end with status 0, so that no
    exception, of a report or other, ended either of them, each writes
    the members that the other writes. *)
Theorem verbose_only_reports
    (w : World) (options : Options.t) (verbose : bool) (args : list string) :
  (run_main w (with_verbose verbose options) args).1 = Return 0 ->
  (run_main w options args).1 = Return 0 ->
  members (run_main w (with_verbose verbose options) args).2
  = members (run_main w options args).2.
Proof.
  intros _ _. apply (main_related eq); try reflexivity.
  - intros l1 l2 ti ->. reflexivity.
  - left. reflexivity.
Qed.

Lemma verbose_only_reports_witness :
  members (run_main alice_world (with_verbose true (sample_options true false))
             ["/tmp/chromium-1.2.3"]).2
  = members (run_main alice_world (sample_options true false)
               ["/tmp/chromium-1.2.3"]).2.
Proof.
  apply (verbose_only_reports alice_world (sample_options true false) true
           ["/tmp/chromium-1.2.3"]).
  - vm_compute. reflexivity.
  - vm_compute. reflexivity.
Defined.

(** X20.  Size reduction only ever turns a verdict from added to skipped:
    an entry that the guards add with size reduction on is added with
    size reduction off, and an entry that a guard skips with size
    reduction off is skipped by the same guard with it on. *)
Theorem size_reduction_only_drops
    (cwd : string) (self : MyTarFile) (name : string) (f : path_facts) :
  (add_check cwd (set_remove_nonessential_files self true) name f = Some Added ->
   add_check cwd (set_remove_nonessential_files self false) name f = Some Added)
  /\ (forall rule,
        add_check cwd (set_remove_nonessential_files self false) name f
        = Some (Skipped rule) ->
        add_check cwd (set_remove_nonessential_files self true) name f
        = Some (Skipped rule)).
Proof.
  unfold add_check, rel_name_of. cbn [__src_dir set_remove_nonessential_files].
  destruct (os_path.relpath cwd name (__src_dir self)) as [rel|];
    [|split; [discriminate | intros rule; discriminate]].
  destruct (os_path.split name) as [d b]. split.
  - intros [= H]. f_equal.
    apply (guards_reduced (set_remove_nonessential_files self true)
             (set_remove_nonessential_files self false) f name rel d b);
      [reflexivity | exact H].
  - intros rule [= H]. f_equal.
    apply (guards_skipped_off (set_remove_nonessential_files self true)
             (set_remove_nonessential_files self false) f name rel d b rule);
      [reflexivity | exact H].
Qed.

Lemma size_reduction_only_drops_witness :
  add_check "/" (set_remove_nonessential_files (archive_at "/src" true) false)
    "/src/v8/src/api.cc" regular_file
  = Some Added.
Proof.
  apply (proj1 (size_reduction_only_drops "/" (archive_at "/src" true)
                  "/src/v8/src/api.cc" regular_file)).
  vm_compute. reflexivity.
Defined.

(** ** What a run prints *)

Lemma silent_ret {A} (a : A) : silent (ret a).
Proof. intros s. reflexivity. Qed.

Lemma silent_raise {A} (e : exn) : silent (@raise A e).
Proof. intros s. reflexivity. Qed.

Lemma silent_addfile (ti : TarInfo.t) : silent (addfile ti).
Proof. intros s. reflexivity. Qed.

Lemma silent_bind {A B} (m : io A) (k : A -> io B) :
  silent m -> (forall a, silent (k a)) -> silent (bind m k).
Proof.
  intros Hm Hk s. unfold bind. specialize (Hm s).
  destruct (m s) as [[a|e] s']; simpl in Hm; [rewrite Hk|]; exact Hm.
Qed.

Lemma silent_for_each {A} (xs : list A) (body : A -> io unit) :
  Forall (fun x => silent (body x)) xs -> silent (for_each xs body).
Proof.
  induction 1 as [|x xs Hx _ IH]; simpl.
  - apply silent_ret.
  - apply silent_bind; [exact Hx | intros _; exact IH].
Qed.

Lemma TarFile_add_silent (host : Host) (node : fsnode) (children : list child_add)
    (name arcname : string) (filter : TarInfo.t -> option TarInfo.t) :
  Forall (fun child : child_add => forall n a, silent (child.2 n a)) children ->
  silent (TarFile_add host node children name arcname filter).
Proof.
  intros Hchildren. unfold TarFile_add.
  destruct (gettarinfo host node arcname) as [ti|]; [|apply silent_ret].
  destruct (filter ti) as [ti'|]; [|apply silent_ret].
  destruct (TarInfo.isreg ti'); [apply silent_addfile|].
  destruct (TarInfo.isdir ti'); [|apply silent_addfile].
  apply silent_bind; [apply silent_addfile|]. intros _.
  apply silent_for_each, sorted_by_Forall.
  eapply Forall_impl; [exact Hchildren|]. intros child H. apply H.
Qed.

(** Without [--verbose], [MyTarFile.add] prints nothing. *)
Lemma add_silent (host : Host) (self : MyTarFile) (node : fsnode) :
  __verbose self = false ->
  forall name arcname, silent (add host self node name arcname).
Proof.
  intros Hquiet.
  induction node as [st|st entries IH|st readlink target|st kind]
    using fsnode_nested_ind; intros name arcname; rewrite add_unfold;
    unfold __report_skipped, __report_added; rewrite Hquiet;
    (destruct (add_check (getcwd host) self name _) as [[rule|]|];
     [apply silent_ret | | apply silent_raise]);
    (apply silent_bind; [apply silent_ret|]; intros _);
    apply TarFile_add_silent; cbn [children_of]; try (constructor; fail).
  induction IH as [|[f child] entries Hchild _ IHe]; simpl.
  - constructor.
  - constructor; [exact Hchild | exact IHe].
Qed.

Lemma add_path_silent (w : World) (self : MyTarFile) (name arcname : string) :
  __verbose self = false -> silent (add_path w self name arcname).
Proof.
  intros Hquiet. unfold add_path. destruct (lookup w name) as [node|].
  - apply add_silent. exact Hquiet.
  - unfold __report_skipped, __report_added. rewrite Hquiet.
    destruct (add_check _ self name no_entry) as [[rule|]|].
    + apply silent_ret.
    + apply silent_bind; [apply silent_ret|]. intros _. apply silent_raise.
    + apply silent_raise.
Qed.

(** X12.  A run of the whole tree without [--verbose] that ends with status 0
    has printed nothing. *)
Theorem quiet_run (w : World) (options : Options.t) (args : list string) :
  Options.verbose options = false ->
  Options.test_data options = false ->
  (run_main w options args).1 = Return 0 ->
  stdout (run_main w options args).2 = [].
Proof.
  intros Hquiet Htree. unfold run_main, main.
  destruct (negb (length args =? 1)%nat); [discriminate|].
  destruct (negb (truthy (Options.version options))); [discriminate|].
  destruct (Options.src_dir options) as [src_dir|]; [|discriminate].
  destruct (negb (exists_ (facts_at w src_dir))); [discriminate|].
  cbv zeta.
  destruct (negb (can_open_output w _)); [discriminate|].
  destruct (negb (can_start_xz w)); [discriminate|].
  destruct (read_int w (os_path.join2 src_dir LASTCHANGE)) as [timestamp|e];
    [|discriminate].
  unfold add_sources. rewrite Htree. unfold bind.
  match goal with
  | |- context [add_path w ?self ?name ?arcname ?s] =>
      pose proof (add_path_silent w self name arcname Hquiet s) as Hout;
      destruct (add_path w self name arcname s) as [[u|e] s']
  end; [|discriminate].
  destruct (negb (xz_exit_status w =? 0)); [discriminate|].
  intros _. exact Hout.
Qed.

Lemma quiet_run_witness :
  stdout (run_main alice_world (sample_options true false) ["/tmp/chromium-1.2.3"]).2
  = [].
Proof.
  apply (quiet_run alice_world (sample_options true false) ["/tmp/chromium-1.2.3"]).
  - reflexivity.
  - reflexivity.
  - vm_compute. reflexivity.
Defined.

(** ** What [main] checks before it writes *)

(** X13.  No member is written unless every check passed: one positional
    argument, a version, a source directory that exists, an output file and
    a compressor that could be opened, and a provenance file that holds an
    integer. *)
Theorem members_only_after_checks
    (w : World) (options : Options.t) (args : list string) :
  members (run_main w options args).2 <> [] ->
  length args = 1%nat
  /\ truthy (Options.version options) = true
  /\ exists src_dir timestamp,
       Options.src_dir options = Some src_dir
       /\ exists_ (facts_at w src_dir) = true
       /\ can_open_output w (hd EmptyString args +:+ ".tar.xz") = true
       /\ can_start_xz w = true
       /\ read_int w (os_path.join2 src_dir LASTCHANGE) = Return timestamp.
Proof.
  unfold run_main, main.
  destruct (Nat.eqb_spec (length args) 1) as [Hargs|_]; cbn [negb];
    [|intros H; destruct H; reflexivity].
  destruct (truthy (Options.version options)); cbn [negb];
    [|intros H; destruct H; reflexivity].
  destruct (Options.src_dir options) as [src_dir|];
    [|intros H; destruct H; reflexivity].
  destruct (exists_ (facts_at w src_dir)) eqn:Hthere; cbn [negb];
    [|intros H; destruct H; reflexivity].
  cbv zeta.
  destruct (can_open_output w _) eqn:Hopen; cbn [negb];
    [|intros H; destruct H; reflexivity].
  destruct (can_start_xz w) eqn:Hxz; cbn [negb];
    [|intros H; destruct H; reflexivity].
  destruct (read_int w (os_path.join2 src_dir LASTCHANGE)) as [timestamp|e]
    eqn:Hread; [|intros H; destruct H; reflexivity].
  intros _. split; [exact Hargs|]. split; [reflexivity|].
  exists src_dir, timestamp. auto.
Qed.

Lemma members_only_after_checks_witness :
  length ["/tmp/chromium-1.2.3"] = 1%nat
  /\ truthy (Options.version (sample_options false false)) = true
  /\ exists src_dir timestamp,
       Options.src_dir (sample_options false false) = Some src_dir
       /\ exists_ (facts_at alice_world src_dir) = true
       /\ can_open_output alice_world
            (hd EmptyString ["/tmp/chromium-1.2.3"] +:+ ".tar.xz") = true
       /\ can_start_xz alice_world = true
       /\ read_int alice_world (os_path.join2 src_dir LASTCHANGE) = Return timestamp.
Proof.
  apply (members_only_after_checks alice_world (sample_options false false)
           ["/tmp/chromium-1.2.3"]).
  vm_compute. discriminate.
Defined.

(** ** Single entries in the traversal *)

(** X14.  A socket that passes the guards is reported as added when the run is
    verbose, and yet no member is written for it: [gettarinfo] has no
    record for a socket and [TarFile.add] returns. *)
Theorem socket_reported_not_archived
    (host : Host) (self : MyTarFile) (st : stat_result)
    (name arcname : string) (s : archive) :
  add_check (getcwd host) self name (facts_of (Special st Socket)) = Some Added ->
  (add host self (Special st Socket) name arcname s).1 = Return tt
  /\ members (add host self (Special st Socket) name arcname s).2 = members s
  /\ stdout (add host self (Special st Socket) name arcname s).2
     = stdout s ++ (if __verbose self then ["A" +:+ TAB +:+ name] else []).
Proof.
  intros Hcheck. rewrite add_unfold, Hcheck.
  unfold __report_added, TarFile_add, bind.
  destruct (__verbose self); simpl; rewrite ?app_nil_r; auto.
Qed.

Lemma socket_reported_not_archived_witness :
  (add (sample_host "alice" "staff") (archive_at "/src" true) sample_socket
     "/src/run/agent.sock" "chromium/run/agent.sock" empty_archive).1 = Return tt
  /\ members (add (sample_host "alice" "staff") (archive_at "/src" true)
                sample_socket "/src/run/agent.sock" "chromium/run/agent.sock"
                empty_archive).2
     = members empty_archive
  /\ stdout (add (sample_host "alice" "staff") (archive_at "/src" true)
               sample_socket "/src/run/agent.sock" "chromium/run/agent.sock"
               empty_archive).2
     = stdout empty_archive
       ++ (if __verbose (archive_at "/src" true)
           then ["A" +:+ TAB +:+ "/src/run/agent.sock"] else []).
Proof.
  apply (socket_reported_not_archived (sample_host "alice" "staff")
           (archive_at "/src" true) (sample_stat 0xc1ed 1000 50 1600000000)
           "/src/run/agent.sock" "chromium/run/agent.sock" empty_archive).
  vm_compute. reflexivity.
Defined.

(** X15.  On the empty path [MyTarFile.add] raises [ValueError], whatever
    the object, the archive object and the archive: [os.path.relpath] of
    line 150 raises it before any guard is tried, and nothing is written
    or printed. *)
Theorem add_raises_on_empty_path
    (host : Host) (self : MyTarFile) (node : fsnode)
    (arcname : string) (s : archive) :
  add host self node EmptyString arcname s = (Raise ValueError, s).
Proof.
  rewrite add_unfold.
  rewrite (proj2 (add_check_None (getcwd host) self EmptyString (facts_of node))
             eq_refl).
  reflexivity.
Qed.

(** X16.  The order in which [os.listdir] lists a directory leaves no trace:
    [TarFile.add] sorts the listing, so two listings of the same entries
    under distinct names give the same members, the same output and the
    same result. *)
Theorem listing_order_no_matter
    (host : Host) (self : MyTarFile) (st : stat_result)
    (entries entries' : list (string * fsnode)) (name arcname : string) :
  Permutation entries entries' ->
  NoDup (map fst entries) ->
  add host self (Directory st entries) name arcname
  = add host self (Directory st entries') name arcname.
Proof.
  intros Hperm Hnd. rewrite !add_unfold. cbn [facts_of children_of].
  assert (forall flt,
            TarFile_add host (Directory st entries)
              (map (fun entry => let '(f, child) := entry in (f, add host self child))
                 entries) name arcname flt
            = TarFile_add host (Directory st entries')
                (map (fun entry => let '(f, child) := entry in (f, add host self child))
                   entries') name arcname flt) as Hsame.
  { intros flt. unfold TarFile_add. cbn [gettarinfo lstat].
    rewrite (sorted_by_listing fst _
               (map (fun entry => let '(f, child) := entry in (f, add host self child))
                  entries')); [reflexivity | |].
    - apply Permutation_map. exact Hperm.
    - rewrite map_map. erewrite map_ext; [exact Hnd|]. intros [f child]. reflexivity. }
  rewrite Hsame. reflexivity.
Qed.

Lemma listing_order_no_matter_witness :
  add (sample_host "alice" "staff") (archive_at "/src" true)
    (Directory (sample_stat 0x41ed 1000 50 1600000000)
       [("b.cc", sample_file); ("a.cc", sample_file)]) "/src" "chromium"
  = add (sample_host "alice" "staff") (archive_at "/src" true)
      (Directory (sample_stat 0x41ed 1000 50 1600000000)
         [("a.cc", sample_file); ("b.cc", sample_file)]) "/src" "chromium".
Proof.
  apply (listing_order_no_matter (sample_host "alice" "staff")
           (archive_at "/src" true) (sample_stat 0x41ed 1000 50 1600000000)
           [("b.cc", sample_file); ("a.cc", sample_file)]
           [("a.cc", sample_file); ("b.cc", sample_file)] "/src" "chromium").
  - apply perm_swap.
  - simpl. constructor; [|apply NoDup_singleton].
    intros H. apply list_elem_of_singleton in H. discriminate H.
Defined.

(** An entry that a guard skips: a bytecode cache with an entry of its own. *)
Lemma add_skipped_witness :
  add (sample_host "alice" "staff") (archive_at "/src" true)
    (Directory (sample_stat 0x41ed 1000 50 1600000000) [("a.cc", sample_file)])
    "/src/tools/__pycache__" "chromium/tools/__pycache__"
  = __report_skipped (archive_at "/src" true) "/src/tools/__pycache__"
  /\ forall s,
       members (add (sample_host "alice" "staff") (archive_at "/src" true)
                  (Directory (sample_stat 0x41ed 1000 50 1600000000)
                     [("a.cc", sample_file)])
                  "/src/tools/__pycache__" "chromium/tools/__pycache__" s).2
       = members s.
Proof.
  apply (add_skipped (sample_host "alice" "staff") (archive_at "/src" true)
           (Directory (sample_stat 0x41ed 1000 50 1600000000) [("a.cc", sample_file)])
           "/src/tools/__pycache__" "chromium/tools/__pycache__" BytecodeCache).
  vm_compute. reflexivity.
Defined.

(** ** The pattern, both ways *)

Lemma search_spec (r : re.regex) (s : string) :
  re.search r s = true
  <-> exists a b, s = a +:+ b /\ re.accept r b (fun _ => true) = true.
Proof.
  split.
  - induction s as [|c s IH]; cbn [re.search]; intros H;
      apply orb_true_iff in H as [H|H].
    + exists EmptyString, EmptyString. split; [reflexivity | exact H].
    + discriminate H.
    + exists EmptyString, (String c s). split; [reflexivity | exact H].
    + destruct (IH H) as (a & b & -> & Hb).
      exists (String c a), b. split; [reflexivity | exact Hb].
  - intros (a & b & -> & Hb). apply search_suffix, search_here, Hb.
Qed.

Lemma plus_class_spec (cls : ascii -> bool) (s : string) (k : string -> bool) :
  re.plus_class cls s k = true
  <-> exists t rest, s = t +:+ rest /\ t <> EmptyString
                     /\ all_in_class cls t = true /\ k rest = true.
Proof.
  split.
  - induction s as [|a s IH]; simpl; [discriminate|]. intros H.
    apply andb_true_iff in H as [Ha H]. apply orb_true_iff in H as [H|H].
    + exists (String a EmptyString), s. simpl. rewrite Ha.
      repeat split; [discriminate | exact H].
    + destruct (IH H) as (t & rest & -> & _ & Hall & Hk).
      exists (String a t), rest. simpl. rewrite Ha, Hall.
      repeat split; [discriminate | exact Hk].
  - intros (t & rest & -> & Hne & Hall & Hk).
    induction t as [|a t IH]; [congruence|].
    rewrite app_cons. simpl in *. apply andb_true_iff in Hall as [Ha Hall].
    rewrite Ha. simpl. destruct t as [|b t].
    + rewrite app_empty_l, Hk. reflexivity.
    + rewrite IH; [apply orb_true_r | discriminate | exact Hall].
Qed.

Lemma at_end_spec (s : string) : re.at_end s = true <-> line_end s.
Proof.
  unfold re.at_end, line_end. rewrite orb_true_iff, !String.eqb_eq. reflexivity.
Qed.

(** The part of the pattern after the extension: [(\.\S+)?$]. *)
Lemma pattern_tail_spec (s : string) :
  re.accept
    (re.Seq (re.Opt (re.Seq (re.Chr ".") (re.PlusClass re.non_space))) re.Dollar)
    s (fun _ => true) = true
  <-> pattern_tail s.
Proof.
  cbn [re.accept]. rewrite orb_true_iff, andb_true_r, at_end_spec.
  unfold pattern_tail. split.
  - intros [H|H]; [right | left; exact H].
    destruct s as [|a s]; [discriminate H|].
    apply andb_true_iff in H as [Ha H]. apply Ascii.eqb_eq in Ha as ->.
    apply plus_class_spec in H as (t & e & -> & Hne & Hall & He).
    rewrite andb_true_r in He. apply at_end_spec in He.
    exists t, e. auto.
  - intros [H|(t & e & -> & Hne & Hall & He)]; [right; exact H | left].
    change ("." +:+ t +:+ e) with (String "."%char (t +:+ e)). cbv iota.
    rewrite Ascii.eqb_refl. cbn [andb]. apply plus_class_spec.
    exists t, e. rewrite andb_true_r. repeat split; try assumption.
    apply at_end_spec, He.
Qed.

Lemma accept_Str (t s : string) (k : string -> bool) :
  re.accept (re.Str t) s k = true <-> exists rest, s = t +:+ rest /\ k rest = true.
Proof.
  cbn [re.accept]. rewrite andb_true_iff. split.
  - intros [Hp Hk]. apply (startswith_spec s t) in Hp as [rest ->].
    rewrite drop_app in Hk. exists rest. auto.
  - intros (rest & -> & Hk). rewrite prefix_app, drop_app. auto.
Qed.

Lemma accept_Chr (c : ascii) (s : string) (k : string -> bool) :
  re.accept (re.Chr c) s k = true <-> exists rest, s = String c rest /\ k rest = true.
Proof.
  cbn [re.accept]. destruct s as [|a s].
  - split; [discriminate | intros (rest & H & _); discriminate H].
  - rewrite andb_true_iff, Ascii.eqb_eq. split.
    + intros [-> Hk]. exists s. auto.
    + intros (rest & [= -> ->] & Hk). auto.
Qed.

Lemma accept_Seq (r1 r2 : re.regex) (s : string) (k : string -> bool) :
  re.accept (re.Seq r1 r2) s k = re.accept r1 s (fun s' => re.accept r2 s' k).
Proof. reflexivity. Qed.

Lemma accept_Alt (r1 r2 : re.regex) (s : string) (k : string -> bool) :
  re.accept (re.Alt r1 r2) s k = re.accept r1 s k || re.accept r2 s k.
Proof. reflexivity. Qed.

(** X17.  What [re.search] with the pattern of line 190 finds: a dot, one of the
    six extensions, and then the end of the name, or a dot and characters
    that are not white space up to the end; the end may be a newline that
    ends the name.  Nothing else matches. *)
Theorem keep_pattern_spec (file_name : string) :
  re.search keep_pattern file_name = true
  <-> exists stem ext tail,
        file_name = stem +:+ "." +:+ ext +:+ tail
        /\ In ext build_extensions /\ pattern_tail tail.
Proof.
  rewrite search_spec. unfold keep_pattern. split.
  - intros (stem & b & -> & H). exists stem.
    rewrite accept_Seq in H. apply accept_Chr in H as (b' & -> & H).
    rewrite accept_Seq, !accept_Alt in H.
    repeat (apply orb_true_iff in H as [H|H]);
      apply accept_Str in H as (tail & -> & Htail);
      apply pattern_tail_spec in Htail;
      eexists _, tail; (split; [reflexivity|]); (split; [|exact Htail]);
      simpl; tauto.
  - intros (stem & ext & tail & -> & Hext & Htail).
    exists stem, ("." +:+ ext +:+ tail). split; [reflexivity|].
    apply pattern_tail_spec in Htail.
    rewrite accept_Seq. apply accept_Chr. exists (ext +:+ tail).
    split; [reflexivity|]. rewrite accept_Seq, !accept_Alt.
    pose proof (proj2 (accept_Str ext (ext +:+ tail)
                         (fun s' =>
                            re.accept
                              (re.Seq
                                 (re.Opt (re.Seq (re.Chr ".")
                                            (re.PlusClass re.non_space)))
                                 re.Dollar) s' (fun _ => true)))
                  (ex_intro _ tail (conj eq_refl Htail))) as Hone.
    simpl in Hext.
    destruct Hext as [<-|[<-|[<-|[<-|[<-|[<-|[]]]]]]];
      rewrite Hone; rewrite ?orb_true_r; reflexivity.
Qed.

(** ** The name an entry is judged by *)

Lemma no_slash_cons (a : ascii) (f : string) :
  str.contains "/" (String a f) = false ->
  Ascii.eqb a "/" = false /\ str.contains "/" f = false.
Proof.
  rewrite contains_unfold.
  destruct (String.prefix "/" (String a f)) eqn:Hp; [discriminate|].
  intros H. split; [|exact H]. apply Ascii.eqb_neq. intros ->.
  assert (String.prefix "/" (String "/" f) = true) as Hp'
    by (apply prefix_cons; split; [reflexivity | destruct f; reflexivity]).
  congruence.
Qed.

Lemma rfind_from_no_slash (f : string) (i last : Z) :
  str.contains "/" f = false -> str.rfind_from "/" f i last = last.
Proof.
  revert i last. induction f as [|a f IH]; intros i last H; [reflexivity|].
  apply no_slash_cons in H as [Ha H]. simpl. rewrite Ha. apply IH, H.
Qed.

Lemma rfind_from_last_slash (a f : string) (i last : Z) :
  str.contains "/" f = false ->
  str.rfind_from "/" (a +:+ "/" +:+ f) i last = i + Z.of_nat (String.length a).
Proof.
  intros Hf. revert i last. induction a as [|c a IH]; intros i last.
  - rewrite app_empty_l. change ("/" +:+ f) with (String "/"%char f).
    simpl. rewrite rfind_from_no_slash by exact Hf. lia.
  - rewrite app_cons. cbn [str.rfind_from]. rewrite IH.
    cbn [String.length]. lia.
Qed.

Lemma basename_no_slash (f : string) :
  str.contains "/" f = false -> os_path.basename f = f.
Proof.
  intros Hf. unfold os_path.basename, os_path.split, str.rfind, str.slice_from.
  cbn [snd]. unfold os_path.sep. rewrite rfind_from_no_slash by exact Hf.
  destruct f; reflexivity.
Qed.

Lemma basename_after_slash (a f : string) :
  str.contains "/" f = false -> os_path.basename (a +:+ "/" +:+ f) = f.
Proof.
  intros Hf. unfold os_path.basename, os_path.split, str.rfind, str.slice_from.
  cbn [snd]. unfold os_path.sep. rewrite rfind_from_last_slash by exact Hf.
  replace (Z.to_nat (0 + Z.of_nat (String.length a) + 1))
    with (String.length (a +:+ "/")).
  - rewrite <- app_assoc_str. apply drop_app.
  - induction a as [|c a IH]; [reflexivity|].
    rewrite app_cons. cbn [String.length]. rewrite IH. lia.
Qed.

(** X18.  In the traversal an entry of a directory is judged by its own name:
    the base name that [os.path.split] finds in the path that
    [TarFile.add] joins for the entry is the name of the entry, whatever
    the path of the directory, as the name of an entry has no slash. *)
Theorem entry_judged_by_own_name (name f : string) :
  str.contains "/" f = false ->
  os_path.basename (os_path.join2 name f) = f.
Proof.
  intros Hf. unfold os_path.join2, os_path.join, os_path.join_step. simpl.
  destruct (str.startswith f "/"); [apply basename_no_slash, Hf|].
  destruct (String.eqb_spec name EmptyString) as [->|_]; simpl.
  - rewrite app_empty_l. apply basename_no_slash, Hf.
  - destruct (str.endswith name "/") eqn:Hend.
    + apply endswith_spec in Hend as [a ->]. rewrite app_assoc_str.
      apply basename_after_slash, Hf.
    + apply basename_after_slash, Hf.
Qed.

Lemma entry_judged_by_own_name_witness :
  os_path.basename (os_path.join2 "/src/third_party/node_modules/" "out") = "out".
Proof.
  apply (entry_judged_by_own_name "/src/third_party/node_modules/" "out").
  reflexivity.
Defined.

(** ** The source directory under the guards *)

Lemma commonprefix_len_diag (l : list string) :
  os_path.commonprefix_len l l = length l.
Proof.
  induction l as [|x l IH]; simpl; [reflexivity|].
  rewrite String.eqb_refl, IH. reflexivity.
Qed.

(** [relpath(path, path)] is the current directory. *)
Lemma relpath_same (cwd path : string) :
  path <> EmptyString -> os_path.relpath cwd path path = Some ".".
Proof.
  intros Hne. unfold os_path.relpath.
  destruct (String.eqb_spec path EmptyString) as [E|_]; [contradiction|].
  cbv zeta. rewrite commonprefix_len_diag, Nat.sub_diag, skipn_all. reflexivity.
Qed.

(** X19.  The guards judge the source directory itself, by its own name and with
    the relative path [.]: a checkout in a directory named [.git], or
    named [.svn] or [out] on a path free of [node_modules], is skipped as
    a whole.  The run of the whole tree then writes an archive without
    members and still ends with status 0. *)
Theorem source_directory_skipped
    (w : World) (options : Options.t) (args : list string)
    (src_dir : string) (timestamp : Z) :
  length args = 1%nat ->
  truthy (Options.version options) = true ->
  Options.src_dir options = Some src_dir ->
  Options.test_data options = false ->
  exists_ (facts_at w src_dir) = true ->
  can_open_output w (hd EmptyString args +:+ ".tar.xz") = true ->
  can_start_xz w = true ->
  read_int w (os_path.join2 src_dir LASTCHANGE) = Return timestamp ->
  xz_exit_status w = 0 ->
  os_path.basename src_dir = ".git"
  \/ (In (os_path.basename src_dir) [".svn"; "out"]
      /\ str.contains "node_modules" (os_path.dirname src_dir) = false) ->
  (run_main w options args).1 = Return 0
  /\ members (run_main w options args).2 = [].
Proof.
  intros Hargs Hver Hsrc Htree Hthere Hopen Hxz Hread Hstatus Hname.
  assert (src_dir <> EmptyString) as Hne.
  { intros ->. destruct Hname as [H|[[H|[H|[]]] _]]; discriminate H. }
  unfold run_main, main.
  rewrite Hargs, Hver, Hsrc, Hthere. cbn [Nat.eqb negb]. cbv zeta.
  rewrite Hopen, Hxz, Hread, Hstatus. cbn [negb Z.eqb].
  unfold add_sources, add_path. rewrite Htree.
  unfold facts_at in Hthere.
  destruct (lookup w src_dir) as [node|]; [|discriminate Hthere].
  assert (exists rule,
            add_check (getcwd (host w)) (new_archive options src_dir timestamp)
              src_dir (facts_of node) = Some (Skipped rule)) as [rule Hskip].
  { assert (rel_name_of (getcwd (host w)) (new_archive options src_dir timestamp)
              src_dir = Some ".") as Hrel
      by (unfold rel_name_of; cbn [__src_dir new_archive];
          apply relpath_same, Hne).
    rewrite (add_check_guards _ _ _ _ _ Hrel).
    unfold guards. rewrite Hthere, andb_false_r.
    destruct (String.eqb (os_path.basename src_dir) "__pycache__"
              || str.endswith (os_path.basename src_dir) ".pyc");
      [eexists; reflexivity|].
    destruct Hname as [Hgit|[Hvcs Hnode]].
    - rewrite Hgit.
      change (py_in ".git" [".svn"; "out"]) with false. cbn [andb].
      change (String.eqb ".git" ".git"
              && negb (existsb (str.startswith ".") ESSENTIAL_GIT_DIRS))
        with true.
      eexists. reflexivity.
    - apply py_in_spec in Hvcs. rewrite Hvcs, Hnode. eexists. reflexivity. }
  unfold bind. rewrite add_unfold, Hskip. unfold __report_skipped.
  destruct (__verbose _); split; reflexivity.
Qed.

Lemma source_directory_skipped_witness :
  (run_main out_world out_options ["/tmp/chromium-1.2.3"]).1 = Return 0
  /\ members (run_main out_world out_options ["/tmp/chromium-1.2.3"]).2 = [].
Proof.
  apply (source_directory_skipped out_world out_options ["/tmp/chromium-1.2.3"]
           "/build/out" 1700000000); try reflexivity.
  right. split; [simpl; tauto | reflexivity].
Defined.
